(** * Social-Login: the identity upsert and the session flow of [app.py]

    A shallow embedding of the request handlers of [src/app.py] and of
    [save_user], with the remote table [auth_users] as a list of rows, the
    per-browser session as a finite map, and every outbound call (OAuth
    library, MSAL, Microsoft Graph, Supabase, the clock) as an oracle of the
    request's [World].  The steps of a callback are described a second time,
    directly from the answers of the world, and the handlers are proved to
    follow that description. *)

From Stdlib Require Import ZArith.
From stdpp Require Import gmap strings list fin_maps.

#[local] Set Warnings "-register-all".
Local Open Scope string_scope.
Local Open Scope Z_scope.

(** ** Python values *)

(** The JSON-shaped values that flow through the handlers: provider payloads,
    session entries and column values.  A dict keeps its items in insertion
    order; a key occurs once. *)
Inductive pyval : Type :=
| PNone
| PBool (b : bool)
| PInt (n : Z)
| PStr (s : string)
| PList (xs : list pyval)
| PDict (items : list (string * pyval)).

Section pyval_ind.
Variable P : pyval → Prop.
Hypothesis HNone : P PNone.
Hypothesis HBool : ∀ b, P (PBool b).
Hypothesis HInt : ∀ n, P (PInt n).
Hypothesis HStr : ∀ s, P (PStr s).
Hypothesis HList : ∀ xs, Forall P xs → P (PList xs).
Hypothesis HDict : ∀ items, Forall (λ kv, P kv.2) items → P (PDict items).

Fixpoint pyval_nested_ind (v : pyval) : P v :=
  match v with
  | PNone => HNone
  | PBool b => HBool b
  | PInt n => HInt n
  | PStr s => HStr s
  | PList xs =>
      HList xs
        ((fix go (l : list pyval) : Forall P l :=
            match l with
            | [] => Forall_nil_2 P
            | x :: l' => Forall_cons_2 P x l' (pyval_nested_ind x) (go l')
            end) xs)
  | PDict items =>
      HDict items
        ((fix go (l : list (string * pyval)) : Forall (λ kv, P kv.2) l :=
            match l with
            | [] => Forall_nil_2 _
            | kv :: l' =>
                Forall_cons_2 (λ kv, P kv.2) kv l' (pyval_nested_ind kv.2) (go l')
            end) items)
  end.
End pyval_ind.

Fixpoint pyval_eqb (a b : pyval) : bool :=
  match a, b with
  | PNone, PNone => true
  | PBool x, PBool y => bool_decide (x = y)
  | PInt x, PInt y => bool_decide (x = y)
  | PStr x, PStr y => bool_decide (x = y)
  | PList xs, PList ys =>
      (fix go (l1 l2 : list pyval) : bool :=
         match l1, l2 with
         | [], [] => true
         | x :: l1', y :: l2' => pyval_eqb x y && go l1' l2'
         | _, _ => false
         end) xs ys
  | PDict xs, PDict ys =>
      (fix go (l1 l2 : list (string * pyval)) : bool :=
         match l1, l2 with
         | [], [] => true
         | kx :: l1', ky :: l2' =>
             bool_decide (kx.1 = ky.1) && pyval_eqb kx.2 ky.2 && go l1' l2'
         | _, _ => false
         end) xs ys
  | _, _ => false
  end.

Lemma pyval_eqb_eq (a b : pyval) : pyval_eqb a b = true ↔ a = b.
Proof.
  revert b. induction a as [| x | x | x | xs IH | items IH] using pyval_nested_ind;
    intros [| y | y | y | ys | ys]; simpl; try (split; [discriminate | congruence]);
    try done.
  - rewrite bool_decide_eq_true. split; congruence.
  - rewrite bool_decide_eq_true. split; congruence.
  - rewrite bool_decide_eq_true. split; congruence.
  - revert ys. induction IH as [| x xs Hx _ IHxs]; intros [| y ys];
      try (split; [discriminate | congruence]); [done |].
    rewrite andb_true_iff, Hx, IHxs. split.
    + intros [-> Heq]. by inversion Heq.
    + intros Heq. by inversion Heq.
  - revert ys. induction IH as [| [k x] xs Hx _ IHxs]; intros [| [l y] ys];
      try (split; [discriminate | congruence]); [done |].
    simpl in *. rewrite !andb_true_iff, bool_decide_eq_true, Hx, IHxs. split.
    + intros [[-> ->] Heq]. by inversion Heq.
    + intros Heq. by inversion Heq.
Qed.

#[global] Instance pyval_eq_dec : EqDecision pyval.
Proof.
  refine (λ a b, cast_if (decide (pyval_eqb a b = true)));
    [by apply pyval_eqb_eq | by rewrite <- pyval_eqb_eq].
Defined.

(** Python truthiness, as used by [if not code] and by [a or b]. *)
Definition truthy (v : pyval) : bool :=
  match v with
  | PNone => false
  | PBool b => b
  | PInt n => negb (n =? 0)
  | PStr s => negb (bool_decide (s = ""))
  | PList xs => negb (bool_decide (xs = []))
  | PDict items => negb (bool_decide (items = []))
  end.

(** [a or b]: the left operand when it is truthy, else the right one. *)
Definition py_or (a b : pyval) : pyval := if truthy a then a else b.

(** [type(v).__name__] *)
Definition type_name (v : pyval) : string :=
  match v with
  | PNone => "NoneType"
  | PBool _ => "bool"
  | PInt _ => "int"
  | PStr _ => "str"
  | PList _ => "list"
  | PDict _ => "dict"
  end.

(** ** Exceptions and results *)

Inductive exn : Type :=
| AttributeError (ty attr : string)
| KeyError (key : string)
| UpstreamError (message : string).

(** [str(e)] *)
Definition str_exn (e : exn) : string :=
  match e with
  | AttributeError ty attr =>
      "'" +:+ ty +:+ "' object has no attribute '" +:+ attr +:+ "'"
  | KeyError key => "'" +:+ key +:+ "'"
  | UpstreamError message => message
  end.

Inductive result (A : Type) : Type :=
| Ok (a : A)
| Raise (e : exn).
Arguments Ok {A} a.
Arguments Raise {A} e.

(** ** Dict operations *)

Fixpoint dict_lookup (k : string) (items : list (string * pyval)) : option pyval :=
  match items with
  | [] => None
  | (k', v) :: rest => if decide (k = k') then Some v else dict_lookup k rest
  end.

(** [k in d] *)
Definition dict_contains (k : string) (items : list (string * pyval)) : bool :=
  bool_decide (is_Some (dict_lookup k items)).

(** [d.get(k)] on a dict *)
Definition dict_get (items : list (string * pyval)) (k : string) : pyval :=
  default PNone (dict_lookup k items).

(** [d[k]] *)
Definition dict_getitem (items : list (string * pyval)) (k : string) : result pyval :=
  match dict_lookup k items with
  | Some v => Ok v
  | None => Raise (KeyError k)
  end.

(** [o.get(k, d)] on an arbitrary value: only a dict has the method. *)
Definition py_get_default (o : pyval) (k : string) (d : pyval) : result pyval :=
  match o with
  | PDict items => Ok (default d (dict_lookup k items))
  | _ => Raise (AttributeError (type_name o) "get")
  end.

(** [o.get(k)] *)
Definition py_get (o : pyval) (k : string) : result pyval :=
  py_get_default o k PNone.

(** ** The table [auth_users], the session and the outbound calls *)

(** One row of [auth_users]: the columns that [save_user] writes.
    [updated_at] holds the reading of [datetime.utcnow()], in microseconds;
    the row stores its ISO-8601 text, which is not needed here. *)
Record row : Type := {
  provider : string;
  provider_user_id : pyval;
  name : pyval;
  email : pyval;
  profile_picture : pyval;
  raw_data : pyval;
  updated_at : Z
}.

(** The natural key of a row. *)
Definition row_key (r : row) : string * pyval := (provider r, provider_user_id r).

Inductive response : Type :=
| RedirectResponse (url : string)
| TemplateResponse (template : string) (context : list (string * pyval))
| JSONResponse (body : pyval).

(** What [requests.get] / [oauth.facebook.get] hand back: a reply whose
    [.json()] either parses or raises. *)
Record http_response : Type := { json : result pyval }.

(** What [authorize_redirect] of the OAuth library settles on before it
    answers: the [state] it generated, the data it keeps for that state, and
    the authorization URL it redirects to. *)
Record authorization : Type := {
  state_param : string;
  state_data : pyval;
  authorization_url : string
}.

Inductive db_op : Type := OpSelect | OpUpdate | OpInsert.

(** The outbound calls a handler performs, logged in the order performed. *)
Inductive call : Type :=
| CallAuthorizeRedirect (idp : string)
| CallTokenExchange (idp : string)
| CallProfileFetch (idp : string)
| CallSelect (idp : string) (id : pyval)
| CallUpdate (data : row)
| CallInsert (data : row).

(** Everything outside the program that one request can observe.  A library
    call is taken by its outcome: the value it returns or the exception it
    raises; for [authorize_redirect], which is handed the request, also the
    entry it leaves in the session.  [supabase_fault] names the store calls
    that raise; a store call that raises has not changed the table. *)
Record World : Type := {
  utcnow : Z;
  supabase_fault : db_op → option exn;
  google_authorize_redirect : result authorization;
  google_authorize_access_token : result pyval;
  google_userinfo : pyval → result (list (string * pyval));
  facebook_authorize_redirect : result authorization;
  facebook_authorize_access_token : result pyval;
  facebook_get : pyval → result http_response;
  get_authorization_request_url : result string;
  acquire_token_by_authorization_code : pyval → result (list (string * pyval));
  requests_get : pyval → result http_response
}.

(** The state the handlers act on: the session of the one browser, the table,
    and the log of the outbound calls made so far. *)
Record state : Type := {
  session : gmap string pyval;
  auth_users : list row;
  calls : list call
}.

Definition with_session (f : gmap string pyval → gmap string pyval) (st : state) : state :=
  {| session := f (session st); auth_users := auth_users st; calls := calls st |}.

Definition with_auth_users (f : list row → list row) (st : state) : state :=
  {| session := session st; auth_users := f (auth_users st); calls := calls st |}.

Definition log_call (c : call) (st : state) : state :=
  {| session := session st; auth_users := auth_users st; calls := (calls st ++ [c])%list |}.

(** ** The handler monad: state passing with exceptions

    A raised exception keeps the state reached so far, as in Python. *)
Definition M (A : Type) : Type := state → result A * state.

Definition ret {A} (a : A) : M A := λ st, (Ok a, st).

Definition bind {A B} (m : M A) (k : A → M B) : M B :=
  λ st, match m st with
        | (Ok a, st') => k a st'
        | (Raise e, st') => (Raise e, st')
        end.

(** [try: m except Exception as e: h e] *)
Definition try_except {A} (m : M A) (h : exn → M A) : M A :=
  λ st, match m st with
        | (Ok a, st') => (Ok a, st')
        | (Raise e, st') => h e st'
        end.

Definition lift {A} (r : result A) : M A := λ st, (r, st).

(** An outbound call: logged, then answered by the world. *)
Definition call_out {A} (c : call) (r : result A) : M A := λ st, (r, log_call c st).

Declare Scope py_scope.
Delimit Scope py_scope with py.
Notation "x <- m ;; k" := (bind m (λ x, k))
  (at level 20, m at level 99, k at level 200, only parsing) : py_scope.
Notation "m ;; k" := (bind m (λ _, k))
  (at level 100, k at level 200, right associativity, only parsing) : py_scope.
Local Open Scope py_scope.

(** [request.session.get(k)] *)
Definition session_get (k : string) : M pyval :=
  λ st, (Ok (default PNone (session st !! k)), st).

(** [request.session[k] = v] *)
Definition session_setitem (k : string) (v : pyval) : M unit :=
  λ st, (Ok (), with_session (insert k v) st).

(** [request.session.clear()] *)
Definition session_clear : M unit :=
  λ st, (Ok (), with_session (λ _, ∅) st).

(** The criterion of [.eq(column, value)] travels as the text
    [f"eq.{value}"]: a string as itself and None as the four letters None.
    A column that holds NULL equals no criterion.  A value of another kind is
    compared with the stored value as it is. *)
Definition criterion (i : pyval) : pyval :=
  match i with
  | PNone => PStr "None"
  | _ => i
  end.

(** [.eq("provider", p).eq("provider_user_id", i)] *)
Definition eq_filter (p : string) (i : pyval) (r : row) : Prop :=
  row_key r = (p, criterion i).

#[global] Instance eq_filter_dec p i r : Decision (eq_filter p i r).
Proof. unfold eq_filter. apply _. Defined.

(** [supabase.table("auth_users").select("*").eq(..).eq(..).execute()] *)
Definition execute_select (w : World) (p : string) (i : pyval) : M (list row) :=
  λ st, let st' := log_call (CallSelect p i) st in
        match supabase_fault w OpSelect with
        | Some e => (Raise e, st')
        | None => (Ok (filter (eq_filter p i) (auth_users st)), st')
        end.

(** [supabase.table("auth_users").update(data).eq(..).eq(..).execute()]:
    every row that passes the filter takes the columns of [data]. *)
Definition execute_update (w : World) (data : row) (p : string) (i : pyval) : M unit :=
  λ st, let st' := log_call (CallUpdate data) st in
        match supabase_fault w OpUpdate with
        | Some e => (Raise e, st')
        | None =>
            (Ok (), with_auth_users
                      (fmap (λ r, if decide (eq_filter p i r) then data else r)) st')
        end.

(** [supabase.table("auth_users").insert(data).execute()] *)
Definition execute_insert (w : World) (data : row) : M unit :=
  λ st, let st' := log_call (CallInsert data) st in
        match supabase_fault w OpInsert with
        | Some e => (Raise e, st')
        | None => (Ok (), with_auth_users (λ rows, (rows ++ [data])%list) st')
        end.

(** ** [save_user] *)

Definition save_user (w : World) (provider : string)
    (provider_id name email picture raw_data : pyval) : M unit :=
  let data := {| provider := provider;
                 provider_user_id := provider_id;
                 name := name;
                 email := email;
                 profile_picture := picture;
                 raw_data := raw_data;
                 updated_at := utcnow w |} in
  existing <- execute_select w provider provider_id;;
  if bool_decide (existing ≠ []) then
    execute_update w data provider provider_id
  else
    execute_insert w data.

(** ** Routes *)

Inductive route : Type :=
| Home | LoginGoogle | AuthGoogle | LoginFacebook | AuthFacebook
| LoginMicrosoft | AuthRedirect | Logout.

Record Request : Type := {
  path : route;
  query_params : gmap string string
}.

(** [request.query_params.get(k)] *)
Definition query_get (req : Request) (k : string) : pyval :=
  from_option PStr PNone (query_params req !! k).

Definition home : M response :=
  user <- session_get "user";;
  ret (TemplateResponse "home.html" [("user", user)]).

(** [oauth.<name>.authorize_redirect(request, redirect_uri)]: the library
    keeps the data of the state it generated in the session of the request,
    under [_state_<name>_<state>], and answers the redirect to the provider. *)
Definition authorize_redirect (idp : string) (answer : result authorization) : M response :=
  a <- call_out (CallAuthorizeRedirect idp) answer;;
  session_setitem ("_state_" +:+ idp +:+ "_" +:+ state_param a) (state_data a);;
  ret (RedirectResponse (authorization_url a)).

Definition login_google (w : World) : M response :=
  authorize_redirect "google" (google_authorize_redirect w).

Definition auth_google (w : World) : M response :=
  try_except
    (token <- call_out (CallTokenExchange "google") (google_authorize_access_token w);;
     user_info <- call_out (CallProfileFetch "google") (google_userinfo w token);;
     let user_data := user_info in
     save_user w "google"
       (dict_get user_data "sub")
       (dict_get user_data "name")
       (dict_get user_data "email")
       (dict_get user_data "picture")
       (PDict user_data);;
     session_setitem "user" (PDict user_data);;
     ret (RedirectResponse "/"))
    (λ e, ret (TemplateResponse "error.html" [("message", PStr (str_exn e))])).

Definition login_facebook (w : World) : M response :=
  authorize_redirect "facebook" (facebook_authorize_redirect w).

Definition auth_facebook (w : World) : M response :=
  try_except
    (token <- call_out (CallTokenExchange "facebook") (facebook_authorize_access_token w);;
     resp <- call_out (CallProfileFetch "facebook") (facebook_get w token);;
     user_info <- lift (json resp);;
     provider_id <- lift (py_get user_info "id");;
     name <- lift (py_get user_info "name");;
     email <- lift (py_get user_info "email");;
     picture0 <- lift (py_get_default user_info "picture" (PDict []));;
     picture1 <- lift (py_get_default picture0 "data" (PDict []));;
     picture <- lift (py_get picture1 "url");;
     save_user w "facebook" provider_id name email picture user_info;;
     session_setitem "user" user_info;;
     ret (RedirectResponse "/"))
    (λ e, ret (TemplateResponse "error.html" [("message", PStr (str_exn e))])).

Definition login_microsoft (w : World) : M response :=
  url <- call_out (CallAuthorizeRedirect "microsoft") (get_authorization_request_url w);;
  ret (RedirectResponse url).

Definition auth_redirect (w : World) (req : Request) : M response :=
  let code := query_get req "code" in
  if negb (truthy code) then
    ret (JSONResponse (PDict [("error", PStr "Missing authorization code")]))
  else
    result <- call_out (CallTokenExchange "microsoft")
                (acquire_token_by_authorization_code w code);;
    if dict_contains "error" result then
      ret (JSONResponse (PDict [("error", dict_get result "error");
                                ("description", dict_get result "error_description")]))
    else
      access_token <- lift (dict_getitem result "access_token");;
      resp <- call_out (CallProfileFetch "microsoft") (requests_get w access_token);;
      graph_data <- lift (json resp);;
      provider_id <- lift (py_get graph_data "id");;
      name <- lift (py_get graph_data "displayName");;
      mail <- lift (py_get graph_data "mail");;
      email <- (if truthy mail then ret mail
                else lift (py_get graph_data "userPrincipalName"));;
      save_user w "microsoft" provider_id name email PNone graph_data;;
      session_setitem "user" graph_data;;
      ret (RedirectResponse "/").

Definition logout : M response :=
  session_clear;;
  ret (RedirectResponse "/").

(** The application: one request against one world. *)
Definition app (w : World) (req : Request) : M response :=
  match path req with
  | Home => home
  | LoginGoogle => login_google w
  | AuthGoogle => auth_google w
  | LoginFacebook => login_facebook w
  | AuthFacebook => auth_facebook w
  | LoginMicrosoft => login_microsoft w
  | AuthRedirect => auth_redirect w req
  | Logout => logout
  end.


(** ** Specification vocabulary *)

(** The store answers every call of the request. *)
Definition no_fault (w : World) : Prop := ∀ op, supabase_fault w op = None.

(** At most one row per (provider, provider_user_id). *)
Definition one_per_key (rows : list row) : Prop := NoDup (row_key <$> rows).

(** The arguments of one [save_user] call. *)
Record save_args : Type := {
  arg_provider : string;
  arg_provider_id : pyval;
  arg_name : pyval;
  arg_email : pyval;
  arg_picture : pyval;
  arg_raw_data : pyval
}.

Definition save_user' (w : World) (a : save_args) : M unit :=
  save_user w (arg_provider a) (arg_provider_id a) (arg_name a) (arg_email a)
    (arg_picture a) (arg_raw_data a).

(** The row that a call writes. *)
Definition row_of (w : World) (a : save_args) : row :=
  {| provider := arg_provider a;
     provider_user_id := arg_provider_id a;
     name := arg_name a;
     email := arg_email a;
     profile_picture := arg_picture a;
     raw_data := arg_raw_data a;
     updated_at := utcnow w |}.

(** [save_user] calls made one after the other. *)
Fixpoint save_all (cs : list (World * save_args)) (st : state) : state :=
  match cs with
  | [] => st
  | (w, a) :: cs' => save_all cs' (save_user' w a st).2
  end.

(** Session and table agree: what a failed callback must leave behind. *)
Definition untouched (st st' : state) : Prop :=
  session st' = session st ∧ auth_users st' = auth_users st.

(** The only response of a callback that went through. *)
Definition went_through (out : result response) : Prop :=
  out = Ok (RedirectResponse "/").

#[global] Instance went_through_dec out : Decision (went_through out).
Proof.
  unfold went_through.
  refine (match out with
          | Ok (RedirectResponse url) => cast_if (decide (url = "/"))
          | _ => right _
          end); congruence.
Defined.

(** The value found by following [keys] into nested dicts, [None] when a key
    is missing on the way. *)
Fixpoint nested (keys : list string) (v : pyval) : pyval :=
  match keys with
  | [] => v
  | k :: keys' =>
      match v with
      | PDict items =>
          match dict_lookup k items with
          | Some v' => nested keys' v'
          | None => PNone
          end
      | _ => PNone
      end
  end.

(** The e-mail rule in the words of the specification: [mail] when the key is
    present and its value is not null, [userPrincipalName] otherwise. *)
Definition mail_when_present_and_non_null (items : list (string * pyval)) : pyval :=
  match dict_lookup "mail" items with
  | Some v => if decide (v = PNone) then dict_get items "userPrincipalName" else v
  | None => dict_get items "userPrincipalName"
  end.

(** The e-mail rule of the handler: [mail or userPrincipalName]. *)
Definition mail_or_principal (items : list (string * pyval)) : pyval :=
  py_or (dict_get items "mail") (dict_get items "userPrincipalName").

(** The two states of a browser session. *)
Inductive session_state : Type :=
| ANONYMOUS
| AUTHENTICATED (profile : pyval).



(** The state a session is in: its "user" entry, if any. *)
Definition state_of (st : state) : session_state :=
  match session st !! "user" with
  | Some profile => AUTHENTICATED profile
  | None => ANONYMOUS
  end.

(** ** The steps of a callback, read off the answers of the world *)

(** The error page of the Google and Facebook callbacks. *)
Definition error_page (e : exn) : response :=
  TemplateResponse "error.html" [("message", PStr (str_exn e))].

(** How far steps 1 to 3 (token exchange, profile fetch, normalisation) get:
    either the request ends there, with the calls made and the outcome, or the
    profile is normalised into the row that step 4 is to save. *)
Inductive progress : Type :=
| Stopped (made : list call) (out : result response)
| Normalized (profile : pyval) (data : row).

Definition google_steps (w : World) : progress :=
  match google_authorize_access_token w with
  | Raise e => Stopped [CallTokenExchange "google"] (Ok (error_page e))
  | Ok token =>
      match google_userinfo w token with
      | Raise e =>
          Stopped [CallTokenExchange "google"; CallProfileFetch "google"]
            (Ok (error_page e))
      | Ok user_info =>
          Normalized (PDict user_info)
            {| provider := "google";
               provider_user_id := dict_get user_info "sub";
               name := dict_get user_info "name";
               email := dict_get user_info "email";
               profile_picture := dict_get user_info "picture";
               raw_data := PDict user_info;
               updated_at := utcnow w |}
      end
  end.

(** The first value on the way to picture.data.url that a [.get] is called
    on without its being an object. *)
Definition offending (u : pyval) : option pyval :=
  match u with
  | PDict items =>
      match dict_lookup "picture" items with
      | None => None
      | Some (PDict pitems) =>
          match dict_lookup "data" pitems with
          | None | Some (PDict _) => None
          | Some v => Some v
          end
      | Some v => Some v
      end
  | _ => Some u
  end.

Definition facebook_steps (w : World) : progress :=
  let both := [CallTokenExchange "facebook"; CallProfileFetch "facebook"] in
  match facebook_authorize_access_token w with
  | Raise e => Stopped [CallTokenExchange "facebook"] (Ok (error_page e))
  | Ok token =>
      match facebook_get w token with
      | Raise e => Stopped both (Ok (error_page e))
      | Ok resp =>
          match json resp with
          | Raise e => Stopped both (Ok (error_page e))
          | Ok u =>
              match offending u with
              | Some v =>
                  Stopped both (Ok (error_page (AttributeError (type_name v) "get")))
              | None =>
                  Normalized u
                    {| provider := "facebook";
                       provider_user_id := nested ["id"] u;
                       name := nested ["name"] u;
                       email := nested ["email"] u;
                       profile_picture := nested ["picture"; "data"; "url"] u;
                       raw_data := u;
                       updated_at := utcnow w |}
              end
          end
      end
  end.

Definition microsoft_steps (w : World) (req : Request) : progress :=
  let both := [CallTokenExchange "microsoft"; CallProfileFetch "microsoft"] in
  match query_params req !! "code" with
  | None | Some "" =>
      Stopped [] (Ok (JSONResponse (PDict [("error", PStr "Missing authorization code")])))
  | Some code =>
      match acquire_token_by_authorization_code w (PStr code) with
      | Raise e => Stopped [CallTokenExchange "microsoft"] (Raise e)
      | Ok result =>
          match dict_lookup "error" result, dict_lookup "access_token" result with
          | Some err, _ =>
              Stopped [CallTokenExchange "microsoft"]
                (Ok (JSONResponse
                       (PDict [("error", err);
                               ("description", dict_get result "error_description")])))
          | None, None =>
              Stopped [CallTokenExchange "microsoft"] (Raise (KeyError "access_token"))
          | None, Some access_token =>
              match requests_get w access_token with
              | Raise e => Stopped both (Raise e)
              | Ok resp =>
                  match json resp with
                  | Raise e => Stopped both (Raise e)
                  | Ok (PDict items) =>
                      Normalized (PDict items)
                        {| provider := "microsoft";
                           provider_user_id := dict_get items "id";
                           name := dict_get items "displayName";
                           email := mail_or_principal items;
                           profile_picture := PNone;
                           raw_data := PDict items;
                           updated_at := utcnow w |}
                  | Ok u => Stopped both (Raise (AttributeError (type_name u) "get"))
                  end
              end
          end
      end
  end.

Definition is_callback (r : route) : bool :=
  match r with
  | AuthGoogle | AuthFacebook | AuthRedirect => true
  | _ => false
  end.

Definition callback_steps (w : World) (req : Request) : option progress :=
  match path req with
  | AuthGoogle => Some (google_steps w)
  | AuthFacebook => Some (facebook_steps w)
  | AuthRedirect => Some (microsoft_steps w req)
  | _ => None
  end.

(** Step 4: the exception, if any, that the store raises when [data] is
    saved into [rows]: on the select, or on the write the select leads to. *)
Definition store_raises (w : World) (data : row) (rows : list row) : option exn :=
  match supabase_fault w OpSelect with
  | Some e => Some e
  | None =>
      if bool_decide (filter (eq_filter (provider data) (provider_user_id data)) rows ≠ [])
      then supabase_fault w OpUpdate
      else supabase_fault w OpInsert
  end.

(** The calls step 4 makes for [data]: the select, and the one write it
    leads to unless the select raises. *)
Definition store_calls (w : World) (data : row) (rows : list row) : list call :=
  CallSelect (provider data) (provider_user_id data) ::
  match supabase_fault w OpSelect with
  | Some _ => []
  | None =>
      if bool_decide (filter (eq_filter (provider data) (provider_user_id data)) rows ≠ [])
      then [CallUpdate data]
      else [CallInsert data]
  end.

(** The calls of a whole callback, from its steps. *)
Definition calls_of (w : World) (pr : progress) (rows : list row) : list call :=
  match pr with
  | Stopped made _ => made
  | Normalized _ data =>
      CallTokenExchange (provider data) :: CallProfileFetch (provider data) ::
      store_calls w data rows
  end.

(** The name a login route registers with the OAuth library. *)
Definition idp_of_login (r : route) : string :=
  match r with
  | LoginGoogle => "google"
  | LoginFacebook => "facebook"
  | _ => "microsoft"
  end.

(** The provider a callback route belongs to. *)
Definition idp_of (r : route) : string :=
  match r with
  | AuthGoogle => "google"
  | AuthFacebook => "facebook"
  | _ => "microsoft"
  end.

(** The profile a callback request signs in with: steps 1 to 3 end in a
    normalised profile and the store raises nothing in step 4. *)
Definition sign_in (w : World) (req : Request) (st : state) : option pyval :=
  match callback_steps w req with
  | Some (Normalized profile data) =>
      match store_raises w data (auth_users st) with
      | None => Some profile
      | Some _ => None
      end
  | _ => None
  end.

(** The row a callback request is to save, when steps 1 to 3 yield one. *)
Definition identity_row (w : World) (req : Request) : option row :=
  match callback_steps w req with
  | Some (Normalized _ data) => Some data
  | _ => None
  end.

(** What an exception of the store becomes: the error page for Google and
    Facebook; the Microsoft callback lets it go. *)
Definition on_store_error (r : route) (e : exn) : result response :=
  match r with
  | AuthRedirect => Raise e
  | _ => Ok (error_page e)
  end.

(** The state after the calls [made]. *)
Definition after_calls (made : list call) (st : state) : state :=
  {| session := session st; auth_users := auth_users st;
     calls := (calls st ++ made)%list |}.

(** A callback as its steps describe it. *)
Definition finish (r : route) (w : World) (pr : progress) (st : state)
    : result response * state :=
  match pr with
  | Stopped made out => (out, after_calls made st)
  | Normalized profile data =>
      match save_user w (provider data) (provider_user_id data) (name data) (email data)
              (profile_picture data) (raw_data data)
              (after_calls [CallTokenExchange (provider data);
                            CallProfileFetch (provider data)] st) with
      | (Ok _, st') => (Ok (RedirectResponse "/"), with_session (insert "user" profile) st')
      | (Raise e, st') => (on_store_error r e, st')
      end
  end.

(** A request that ends without the redirect to the home page and leaves the
    "user" entry of the session, hence the state of the session, and the
    table as they were. *)
Definition leaves_state (w : World) (req : Request) (st : state) : Prop :=
  ¬ went_through (app w req st).1 ∧
  session (app w req st).2 !! "user" = session st !! "user" ∧
  state_of (app w req st).2 = state_of st ∧
  auth_users (app w req st).2 = auth_users st.




(** A store call, as opposed to a call to a provider or its library. *)
Definition is_store_call (c : call) : bool :=
  match c with
  | CallSelect _ _ | CallUpdate _ | CallInsert _ => true
  | _ => false
  end.

Definition is_dict (v : pyval) : bool :=
  match v with
  | PDict _ => true
  | _ => false
  end.

(** ** Concrete worlds, requests and states *)

Definition unreachable {A} : result A := Raise (UpstreamError "unreachable").

(** Nothing answers but the clock and the store. *)
Definition offline (now : Z) : World :=
  {| utcnow := now;
     supabase_fault := λ _, None;
     google_authorize_redirect := unreachable;
     google_authorize_access_token := unreachable;
     google_userinfo := λ _, unreachable;
     facebook_authorize_redirect := unreachable;
     facebook_authorize_access_token := unreachable;
     facebook_get := λ _, unreachable;
     get_authorization_request_url := unreachable;
     acquire_token_by_authorization_code := λ _, unreachable;
     requests_get := λ _, unreachable |}.

(** Google answers with [profile]. *)
Definition google_world (now : Z) (profile : list (string * pyval))
    (fault : db_op → option exn) : World :=
  {| utcnow := now;
     supabase_fault := fault;
     google_authorize_redirect := unreachable;
     google_authorize_access_token := Ok (PDict [("access_token", PStr "g-token")]);
     google_userinfo := λ _, Ok profile;
     facebook_authorize_redirect := unreachable;
     facebook_authorize_access_token := unreachable;
     facebook_get := λ _, unreachable;
     get_authorization_request_url := unreachable;
     acquire_token_by_authorization_code := λ _, unreachable;
     requests_get := λ _, unreachable |}.

(** Facebook answers with [profile]. *)
Definition facebook_world (now : Z) (profile : pyval)
    (fault : db_op → option exn) : World :=
  {| utcnow := now;
     supabase_fault := fault;
     google_authorize_redirect := unreachable;
     google_authorize_access_token := unreachable;
     google_userinfo := λ _, unreachable;
     facebook_authorize_redirect := unreachable;
     facebook_authorize_access_token := Ok (PDict [("access_token", PStr "f-token")]);
     facebook_get := λ _, Ok {| json := Ok profile |};
     get_authorization_request_url := unreachable;
     acquire_token_by_authorization_code := λ _, unreachable;
     requests_get := λ _, unreachable |}.

(** MSAL hands out a token and Graph answers with [profile]. *)
Definition microsoft_world (now : Z) (profile : pyval)
    (fault : db_op → option exn) : World :=
  {| utcnow := now;
     supabase_fault := fault;
     google_authorize_redirect := unreachable;
     google_authorize_access_token := unreachable;
     google_userinfo := λ _, unreachable;
     facebook_authorize_redirect := unreachable;
     facebook_authorize_access_token := unreachable;
     facebook_get := λ _, unreachable;
     get_authorization_request_url := unreachable;
     acquire_token_by_authorization_code := λ _, Ok [("access_token", PStr "m-token")];
     requests_get := λ _, Ok {| json := Ok profile |} |}.

(** The OAuth library answers the Google login with [a]. *)
Definition google_consent (now : Z) (a : authorization) : World :=
  {| utcnow := now;
     supabase_fault := λ _, None;
     google_authorize_redirect := Ok a;
     google_authorize_access_token := unreachable;
     google_userinfo := λ _, unreachable;
     facebook_authorize_redirect := unreachable;
     facebook_authorize_access_token := unreachable;
     facebook_get := λ _, unreachable;
     get_authorization_request_url := unreachable;
     acquire_token_by_authorization_code := λ _, unreachable;
     requests_get := λ _, unreachable |}.

Definition store_up : db_op → option exn := λ _, None.

Definition store_down : db_op → option exn :=
  λ _, Some (UpstreamError "storage unavailable").

(** A GET request for route [r] with the query string [params]; of a key
    that is repeated, [query_params.get] sees the last value. *)
Definition get (r : route) (params : list (string * string)) : Request :=
  {| path := r; query_params := list_to_map (reverse params) |}.

Definition anonymous : state := {| session := ∅; auth_users := []; calls := [] |}.

Definition facebook_f1 : pyval :=
  PDict [("id", PStr "f1"); ("name", PStr "A"); ("email", PStr "a@x.com");
         ("picture", PDict [("data", PDict [("url", PStr "http://img")])])].

Definition microsoft_m1 (mail : pyval) : pyval :=
  PDict [("id", PStr "m1"); ("displayName", PStr "A"); ("mail", mail);
         ("userPrincipalName", PStr "a@x.com")].

Definition google_g1 : list (string * pyval) :=
  [("sub", PStr "g1"); ("name", PStr "A"); ("email", PStr "a@x.com");
   ("picture", PStr "http://g/img")].

(** A browser signed in through Google, with its row in the table. *)
Definition signed_in : state :=
  {| session := {["user" := PDict google_g1]};
     auth_users := [{| provider := "google"; provider_user_id := PStr "g1";
                       name := PStr "A"; email := PStr "a@x.com";
                       profile_picture := PStr "http://g/img";
                       raw_data := PDict google_g1; updated_at := 10 |}];
     calls := [] |}.

(** ** Facts about the store operations *)

Lemma criterion_non_null (i : pyval) : i ≠ PNone → criterion i = i.
Proof. by destruct i. Qed.

Lemma criterion_not_null (i : pyval) : criterion i ≠ PNone.
Proof. by destruct i. Qed.

Section upsert.
Context (w : World) (p : string) (i : pyval).

Lemma filter_eq_nonempty (rows : list row) :
  filter (eq_filter p i) rows ≠ [] ↔ ∃ r, r ∈ rows ∧ row_key r = (p, criterion i).
Proof.
  split.
  - destruct (filter (eq_filter p i) rows) as [| r l] eqn:E; [done |].
    intros _. exists r.
    assert (r ∈ filter (eq_filter p i) rows) as Hr by (rewrite E; left).
    apply list_elem_of_filter in Hr as [? ?]. done.
  - intros (r & Hr & Hk) E.
    by apply (filter_nil_not_elem_of (eq_filter p i) rows r E Hk).
Qed.

Lemma update_keeps_keys (data : row) (rows : list row) :
  row_key data = (p, criterion i) →
  row_key <$> ((λ r, if decide (eq_filter p i r) then data else r) <$> rows)
  = row_key <$> rows.
Proof.
  intros Hd. rewrite <- list_fmap_compose. apply list_fmap_ext.
  intros _ r _. simpl. case_decide as Hr; [| done].
  unfold eq_filter in Hr. congruence.
Qed.

Lemma update_in_place (data : row) (rows : list row) (k : nat) (r : row) :
  one_per_key rows → rows !! k = Some r → row_key r = (p, criterion i) →
  (λ r, if decide (eq_filter p i r) then data else r) <$> rows = <[k := data]> rows.
Proof.
  intros Hnd Hk Hr. apply list_eq. intros j.
  rewrite list_lookup_fmap. destruct (decide (j = k)) as [-> | Hne].
  - rewrite Hk. simpl. rewrite decide_True by done.
    symmetry. apply list_lookup_insert_eq. by eapply lookup_lt_Some.
  - rewrite list_lookup_insert_ne by done.
    destruct (rows !! j) as [r' |] eqn:Hj; [simpl | done].
    case_decide as Hr'; [| done]. exfalso. apply Hne.
    eapply (NoDup_lookup _ j k (p, criterion i) Hnd); rewrite list_lookup_fmap.
    + by rewrite Hj; simpl; f_equal.
    + by rewrite Hk; simpl; f_equal.
Qed.

(** What one call does, fault by fault. *)
Lemma save_user_run (n e pic raw : pyval) (st : state) :
  let data := row_of w {| arg_provider := p; arg_provider_id := i; arg_name := n;
                          arg_email := e; arg_picture := pic; arg_raw_data := raw |} in
  let st1 := log_call (CallSelect p i) st in
  save_user w p i n e pic raw st =
    match supabase_fault w OpSelect with
    | Some ex => (Raise ex, st1)
    | None =>
        if bool_decide (filter (eq_filter p i) (auth_users st) ≠ []) then
          execute_update w data p i st1
        else execute_insert w data st1
    end.
Proof.
  intros data st1. subst data st1.
  unfold save_user, bind, execute_select, row_of. simpl.
  destruct (supabase_fault w OpSelect); [done |].
  by case_bool_decide.
Qed.

Lemma save_user_session (n e pic raw : pyval) (st : state) :
  session (save_user w p i n e pic raw st).2 = session st.
Proof.
  rewrite save_user_run. simpl. destruct (supabase_fault w OpSelect); [done |].
  case_bool_decide; unfold execute_update, execute_insert;
    [destruct (supabase_fault w OpUpdate) | destruct (supabase_fault w OpInsert)]; done.
Qed.

Lemma save_user_raise_rows (n e pic raw : pyval) (st : state) (ex : exn) :
  (save_user w p i n e pic raw st).1 = Raise ex →
  auth_users (save_user w p i n e pic raw st).2 = auth_users st.
Proof.
  rewrite save_user_run. simpl. destruct (supabase_fault w OpSelect); [done |].
  case_bool_decide; unfold execute_update, execute_insert;
    [destruct (supabase_fault w OpUpdate) | destruct (supabase_fault w OpInsert)]; done.
Qed.

Lemma save_user_one_per_key (n e pic raw : pyval) (st : state) :
  i ≠ PNone →
  one_per_key (auth_users st) →
  one_per_key (auth_users (save_user w p i n e pic raw st).2).
Proof.
  intros Hi Hinv. rewrite save_user_run. simpl.
  destruct (supabase_fault w OpSelect); [done |].
  case_bool_decide as Hex; unfold execute_update, execute_insert.
  - destruct (supabase_fault w OpUpdate); [done |]. simpl.
    unfold one_per_key. rewrite update_keeps_keys; [done |].
    by rewrite criterion_non_null.
  - destruct (supabase_fault w OpInsert); [done |]. simpl.
    unfold one_per_key. rewrite fmap_app. apply NoDup_app. split_and!; [done | |].
    + intros key Hkey Hin. apply list_elem_of_singleton in Hin. subst key.
      apply list_elem_of_fmap in Hkey as (r & Hr & Hin).
      apply (filter_nil_not_elem_of (eq_filter p i) _ r Hex); [| done].
      unfold eq_filter. rewrite criterion_non_null by done. by rewrite <- Hr.
    + apply NoDup_singleton.
Qed.

Lemma save_user_writes_row (n e pic raw : pyval) (st : state) :
  no_fault w →
  row_of w {| arg_provider := p; arg_provider_id := i; arg_name := n;
              arg_email := e; arg_picture := pic; arg_raw_data := raw |}
    ∈ auth_users (save_user w p i n e pic raw st).2.
Proof.
  intros Hnf. rewrite save_user_run. simpl. rewrite (Hnf OpSelect).
  case_bool_decide as Hex.
  - unfold execute_update. rewrite (Hnf OpUpdate). simpl.
    apply filter_eq_nonempty in Hex as (r & Hr & Hkey).
    apply list_elem_of_fmap. exists r. split; [| done].
    by rewrite decide_True.
  - unfold execute_insert. rewrite (Hnf OpInsert). simpl.
    apply elem_of_app. right. by left.
Qed.
End upsert.

Lemma save_user_result (w : World) (p : string) (i n e pic raw : pyval) (st : state) :
  (save_user w p i n e pic raw st).1 =
    match store_raises w {| provider := p; provider_user_id := i; name := n; email := e;
                            profile_picture := pic; raw_data := raw;
                            updated_at := utcnow w |} (auth_users st) with
    | Some ex => Raise ex
    | None => Ok ()
    end.
Proof.
  rewrite save_user_run. unfold store_raises. simpl.
  destruct (supabase_fault w OpSelect); [done |].
  case_bool_decide; unfold execute_update, execute_insert;
    [destruct (supabase_fault w OpUpdate) | destruct (supabase_fault w OpInsert)]; done.
Qed.

Lemma save_user_no_fault_ok (w : World) (p : string) (i n e pic raw : pyval) (st : state) :
  no_fault w → (save_user w p i n e pic raw st).1 = Ok ().
Proof.
  intros Hnf. rewrite save_user_result. unfold store_raises. rewrite (Hnf OpSelect).
  case_bool_decide; [by rewrite (Hnf OpUpdate) | by rewrite (Hnf OpInsert)].
Qed.

(** ** What a successful upsert leaves behind *)

Lemma save_user_ok_inv (w : World) (p : string) (i n e pic raw : pyval) (st st' : state) :
  save_user w p i n e pic raw st = (Ok (), st') →
  let data := {| provider := p; provider_user_id := i; name := n; email := e;
                 profile_picture := pic; raw_data := raw; updated_at := utcnow w |} in
  (calls st' = (calls st ++ [CallSelect p i; CallUpdate data])%list ∨
   calls st' = (calls st ++ [CallSelect p i; CallInsert data])%list) ∧
  data ∈ auth_users st' ∧
  (∀ r, r ∈ auth_users st' → r ∈ auth_users st ∨ r = data) ∧
  (i ≠ PNone → ∀ r, r ∈ auth_users st' → row_key r = (p, i) → r = data).
Proof.
  rewrite save_user_run. simpl.
  destruct (supabase_fault w OpSelect); [done |].
  case_bool_decide as Hex; unfold execute_update, execute_insert.
  - destruct (supabase_fault w OpUpdate); [done |].
    intros [= <-]. simpl. split_and!.
    + left. by rewrite <- app_assoc.
    + apply filter_eq_nonempty in Hex as (r & Hr & Hkey).
      apply list_elem_of_fmap. exists r. split; [| done]. by rewrite decide_True.
    + intros r (r0 & -> & Hr0)%list_elem_of_fmap. case_decide; eauto.
    + intros Hi r (r0 & -> & Hr0)%list_elem_of_fmap. case_decide as Hr; [done |].
      intros Hkey. exfalso. apply Hr. unfold eq_filter.
      by rewrite criterion_non_null.
  - destruct (supabase_fault w OpInsert); [done |].
    intros [= <-]. simpl. split_and!.
    + right. by rewrite <- app_assoc.
    + apply elem_of_app. right. by left.
    + intros r [Hr | Hr%list_elem_of_singleton]%elem_of_app; eauto.
    + intros Hi r [Hr | Hr%list_elem_of_singleton]%elem_of_app Hkey; [| done].
      exfalso. apply (filter_nil_not_elem_of (eq_filter p i) _ r Hex); [| done].
      unfold eq_filter. by rewrite criterion_non_null.
Qed.

(** ** The callbacks against their steps *)

Lemma log_log (a b : call) (st : state) :
  log_call b (log_call a st) = after_calls [a; b] st.
Proof. unfold log_call, after_calls. simpl. by rewrite <- app_assoc. Qed.

Lemma auth_google_run (w : World) (st : state) :
  auth_google w st = finish AuthGoogle w (google_steps w) st.
Proof.
  unfold auth_google, google_steps, try_except, bind, call_out, session_setitem, ret.
  simpl. destruct (google_authorize_access_token w) as [tok | e1]; simpl; [| done].
  destruct (google_userinfo w tok) as [ui | e2]; simpl; rewrite log_log; [| done].
  by destruct (save_user _ _ _ _ _ _ _ _) as [[[] | ex] st'].
Qed.

Lemma nested_get (items : list (string * pyval)) (k : string) :
  nested [k] (PDict items) = dict_get items k.
Proof. unfold dict_get. simpl. by destruct (dict_lookup k items). Qed.

Lemma auth_facebook_run (w : World) (st : state) :
  auth_facebook w st = finish AuthFacebook w (facebook_steps w) st.
Proof.
  unfold auth_facebook, facebook_steps, try_except, bind, call_out, lift,
    session_setitem, ret.
  simpl. destruct (facebook_authorize_access_token w) as [tok | e1]; simpl; [| done].
  destruct (facebook_get w tok) as [resp | e2]; simpl; rewrite log_log; [| done].
  destruct (json resp) as [u | e3]; simpl; [| done].
  destruct u as [| b | z | s | xs | items]; try (simpl; done).
  unfold finish, offending, py_get, dict_get. simpl.
  destruct (dict_lookup "id" items), (dict_lookup "name" items),
    (dict_lookup "email" items); simpl;
    (destruct (dict_lookup "picture" items) as [[| b | z | s | xs | pitems] |]; simpl;
     try done;
     [destruct (dict_lookup "data" pitems) as [[| b | z | s | xs | ditems] |]; simpl;
      try done;
      [destruct (dict_lookup "url" ditems); simpl |] |];
     by destruct (save_user _ _ _ _ _ _ _ _) as [[[] | ex] st']).
Qed.

Lemma auth_redirect_run (w : World) (req : Request) (st : state) :
  auth_redirect w req st = finish AuthRedirect w (microsoft_steps w req) st.
Proof.
  unfold auth_redirect, microsoft_steps, query_get.
  assert (after_calls [] st = st) as Hnil.
  { unfold after_calls. rewrite app_nil_r. by destruct st. }
  destruct (query_params req !! "code") as [code |]; simpl; [| by rewrite Hnil].
  destruct code as [| c code]; simpl; [by rewrite Hnil |].
  unfold bind, call_out, lift, session_setitem, ret, dict_contains, dict_getitem. simpl.
  destruct (acquire_token_by_authorization_code w (PStr (String c code)))
    as [result | e1]; simpl; [| done].
  destruct (dict_lookup "error" result) as [err |] eqn:Herr; simpl.
  { unfold dict_get. by rewrite Herr. }
  destruct (dict_lookup "access_token" result) as [access_token |]; simpl; [| done].
  destruct (requests_get w access_token) as [resp | e2]; simpl; rewrite log_log; [| done].
  destruct (json resp) as [u | e3]; simpl; [| done].
  destruct u as [| b | z | s | xs | items]; simpl; try done.
  fold (dict_get items "id") (dict_get items "displayName") (dict_get items "mail")
    (dict_get items "userPrincipalName").
  unfold mail_or_principal, py_or.
  destruct (truthy (dict_get items "mail")); simpl;
    by destruct (save_user _ _ _ _ _ _ _ _) as [[[] | ex] st'].
Qed.

Lemma callback_run (w : World) (req : Request) (st : state) (pr : progress) :
  callback_steps w req = Some pr →
  app w req st = finish (path req) w pr st.
Proof.
  unfold callback_steps, app. destruct (path req); try done; intros [= <-].
  - apply auth_google_run.
  - apply auth_facebook_run.
  - apply auth_redirect_run.
Qed.

Lemma callback_steps_some (w : World) (req : Request) :
  is_callback (path req) = true → ∃ pr, callback_steps w req = Some pr.
Proof. unfold callback_steps. destruct (path req); try done; by eexists. Qed.

Lemma stopped_not_through (w : World) (req : Request) made out :
  callback_steps w req = Some (Stopped made out) → ¬ went_through out.
Proof.
  unfold callback_steps, went_through.
  destruct (path req); try done; intros [= Hsteps]; revert Hsteps.
  - unfold google_steps. repeat case_match; by intros [= <- <-].
  - unfold facebook_steps. repeat case_match; by intros [= <- <-].
  - unfold microsoft_steps. repeat case_match; by intros [= <- <-].
Qed.

Lemma normalized_row (w : World) (req : Request) profile data :
  callback_steps w req = Some (Normalized profile data) →
  updated_at data = utcnow w ∧
  provider data = match path req with
                  | AuthGoogle => "google"
                  | AuthFacebook => "facebook"
                  | _ => "microsoft"
                  end.
Proof.
  unfold callback_steps.
  destruct (path req); try done; intros [= Hsteps]; revert Hsteps.
  - unfold google_steps. repeat case_match; by intros [= <- <-].
  - unfold facebook_steps. repeat case_match; by intros [= <- <-].
  - unfold microsoft_steps. repeat case_match; by intros [= <- <-].
Qed.

(** A request that signs in: the row is saved and the profile goes under
    "user". *)
Lemma sign_in_run (w : World) (req : Request) (st : state) (profile : pyval) :
  sign_in w req st = Some profile →
  ∃ data st',
    callback_steps w req = Some (Normalized profile data) ∧
    save_user w (provider data) (provider_user_id data) (name data) (email data)
      (profile_picture data) (raw_data data)
      (after_calls [CallTokenExchange (provider data); CallProfileFetch (provider data)] st)
      = (Ok (), st') ∧
    app w req st = (Ok (RedirectResponse "/"), with_session (insert "user" profile) st').
Proof.
  unfold sign_in.
  destruct (callback_steps w req) as [[made out | p data] |] eqn:Hsteps; try done.
  destruct (store_raises w data (auth_users st)) eqn:Hstore; [done |].
  intros [= <-]. exists data.
  rewrite (callback_run w req st _ Hsteps). unfold finish.
  pose proof (save_user_result w (provider data) (provider_user_id data) (name data)
                (email data) (profile_picture data) (raw_data data)
                (after_calls [CallTokenExchange (provider data);
                              CallProfileFetch (provider data)] st)) as Hres.
  assert (updated_at data = utcnow w) as Hnow by by eapply normalized_row.
  rewrite <- Hnow in Hres. destruct data. simpl in *. rewrite Hstore in Hres.
  destruct (save_user _ _ _ _ _ _ _ _) as [[[] | ex] st']; [| done].
  by exists st'.
Qed.

(** A callback request that does not sign in ends without the redirect and
    leaves the session and the table as they were. *)
Lemma no_sign_in_run (w : World) (req : Request) (st : state) :
  is_callback (path req) = true → sign_in w req st = None →
  ¬ went_through (app w req st).1 ∧
  session (app w req st).2 = session st ∧
  auth_users (app w req st).2 = auth_users st.
Proof.
  intros Hcb. destruct (callback_steps_some w req Hcb) as [pr Hsteps].
  unfold sign_in. rewrite Hsteps, (callback_run w req st _ Hsteps).
  destruct pr as [made out | p data]; simpl.
  - intros _. split; [by eapply stopped_not_through | done].
  - destruct (store_raises w data (auth_users st)) as [ex |] eqn:Hstore; [| done].
    intros _.
    pose proof (save_user_result w (provider data) (provider_user_id data) (name data)
                  (email data) (profile_picture data) (raw_data data)
                  (after_calls [CallTokenExchange (provider data);
                                CallProfileFetch (provider data)] st)) as Hres.
    pose proof (save_user_session w (provider data) (provider_user_id data) (name data)
                  (email data) (profile_picture data) (raw_data data)
                  (after_calls [CallTokenExchange (provider data);
                                CallProfileFetch (provider data)] st)) as Hs.
    pose proof (save_user_raise_rows w (provider data) (provider_user_id data)
                  (name data) (email data) (profile_picture data) (raw_data data)
                  (after_calls [CallTokenExchange (provider data);
                                CallProfileFetch (provider data)] st)) as Hr.
    assert (updated_at data = utcnow w) as Hnow by by eapply normalized_row.
    rewrite <- Hnow in Hres. destruct data. simpl in *. rewrite Hstore in Hres.
    destruct (save_user _ _ _ _ _ _ _ _) as [[[] | ex'] st']; [done |].
    simpl in *. split; [| split; [done | by eapply Hr]].
    unfold on_store_error, went_through. by destruct (path req).
Qed.

Lemma state_of_user (st st' : state) :
  session st' !! "user" = session st !! "user" → state_of st' = state_of st.
Proof. unfold state_of. by intros ->. Qed.

Lemma save_data_ok (w : World) (data : row) (st st' : state) :
  updated_at data = utcnow w →
  save_user w (provider data) (provider_user_id data) (name data) (email data)
    (profile_picture data) (raw_data data) st = (Ok (), st') →
  data ∈ auth_users st' ∧
  ((filter (eq_filter (provider data) (provider_user_id data)) (auth_users st) ≠ [] ∧
    auth_users st' =
      (λ r, if decide (eq_filter (provider data) (provider_user_id data) r)
            then data else r) <$> auth_users st) ∨
   (filter (eq_filter (provider data) (provider_user_id data)) (auth_users st) = [] ∧
    auth_users st' = (auth_users st ++ [data])%list)).
Proof.
  intros Hnow Hsave. destruct data as [p i n e pic raw now]. simpl in *. subst now.
  split; [by apply save_user_ok_inv in Hsave as (_ & Hin & _) |].
  revert Hsave. rewrite save_user_run. simpl.
  destruct (supabase_fault w OpSelect); [done |].
  case_bool_decide as Hex; unfold execute_update, execute_insert.
  - destruct (supabase_fault w OpUpdate); [done |]. intros [= <-]. by left.
  - destruct (supabase_fault w OpInsert); [done |]. intros [= <-]. by right.
Qed.

(** ** The identity upsert *)

(** C1, for the ids the signature of [save_user] admits.  With a provider id
    that is not None and a store that answers, every [save_user] call returns
    normally and leaves the session alone; when a row with the key
    (provider, provider_id) exists, the table keeps its length and each such
    row keeps its key and takes the given name, email, picture, raw data and
    the clock reading as [updated_at], every other row staying as it was; when
    no such row exists, the table is the old one followed by one row made of
    exactly the given fields and the clock reading. *)
Theorem save_user_upsert (w : World) (p : string) (i n e pic raw : pyval) (st : state) :
  i ≠ PNone →
  no_fault w →
  ∃ st',
    save_user w p i n e pic raw st = (Ok (), st') ∧
    session st' = session st ∧
    ((∃ r, r ∈ auth_users st ∧ row_key r = (p, i)) →
       length (auth_users st') = length (auth_users st) ∧
       ∀ k r, auth_users st !! k = Some r →
         auth_users st' !! k =
           Some (if decide (row_key r = (p, i)) then
                   {| provider := provider r;
                      provider_user_id := provider_user_id r;
                      name := n;
                      email := e;
                      profile_picture := pic;
                      raw_data := raw;
                      updated_at := utcnow w |}
                 else r)) ∧
    ((¬ ∃ r, r ∈ auth_users st ∧ row_key r = (p, i)) →
       auth_users st' =
         (auth_users st ++
            [{| provider := p;
                provider_user_id := i;
                name := n;
                email := e;
                profile_picture := pic;
                raw_data := raw;
                updated_at := utcnow w |}])%list).
Proof.
  intros Hi Hnf. rewrite save_user_run. simpl. rewrite (Hnf OpSelect).
  case_bool_decide as Hex.
  - unfold execute_update. rewrite (Hnf OpUpdate).
    eexists. split; [done |]. simpl. split; [done |]. split.
    + intros _. split; [by rewrite length_fmap |].
      intros k r Hk. rewrite list_lookup_fmap, Hk. simpl. f_equal.
      assert (eq_filter p i r ↔ row_key r = (p, i)) as Hiff
        by (unfold eq_filter; by rewrite criterion_non_null).
      destruct (decide (eq_filter p i r)) as [Hr | Hr],
        (decide (row_key r = (p, i))) as [Hr' | Hr'].
      * unfold row_key in Hr'. by injection Hr' as <- <-.
      * by destruct Hr'; apply Hiff.
      * by destruct Hr; apply Hiff.
      * done.
    + intros Hno. exfalso. apply Hno.
      apply filter_eq_nonempty in Hex. by rewrite (criterion_non_null i Hi) in Hex.
  - unfold execute_insert. rewrite (Hnf OpInsert).
    eexists. split; [done |]. simpl. split; [done |]. split.
    + intros Hsome. rewrite <- (criterion_non_null i Hi) in Hsome.
      apply filter_eq_nonempty in Hsome. done.
    + done.
Qed.

Lemma save_user_upsert_witness :
  ∃ st',
    save_user (offline 20) "google" (PStr "g1") (PStr "B") (PStr "b@x.com") PNone
      (PDict []) signed_in = (Ok (), st') ∧
    session st' = session signed_in ∧
    auth_users st' !! 0%nat =
      Some {| provider := "google"; provider_user_id := PStr "g1"; name := PStr "B";
              email := PStr "b@x.com"; profile_picture := PNone; raw_data := PDict [];
              updated_at := 20 |}.
Proof.
  destruct (save_user_upsert (offline 20) "google" (PStr "g1") (PStr "B")
              (PStr "b@x.com") PNone (PDict []) signed_in)
    as (st' & Hrun & Hsession & Hupd & _); [done | intros op; reflexivity |].
  exists st'. split; [exact Hrun |]. split; [exact Hsession |].
  destruct Hupd as [_ Hrows].
  - eexists. split; [left | reflexivity].
  - exact (Hrows 0%nat _ eq_refl).
Defined.

(** C1 as worded fails at a None id: the table holds a record of
    (google, None), yet the call leaves that record as it is and inserts a
    second one beside it. *)
Lemma save_user_null_id_counterexample :
  let held := {| provider := "google"; provider_user_id := PNone; name := PStr "A";
                 email := PStr "a@x.com"; profile_picture := PNone;
                 raw_data := PDict []; updated_at := 10 |} in
  let st := {| session := ∅; auth_users := [held]; calls := [] |} in
  let run := save_user (offline 20) "google" PNone (PStr "B") (PStr "b@x.com") PNone
               (PDict []) st in
  run.1 = Ok () ∧
  row_key held = ("google", PNone) ∧
  auth_users run.2 =
    [held;
     {| provider := "google"; provider_user_id := PNone; name := PStr "B";
        email := PStr "b@x.com"; profile_picture := PNone; raw_data := PDict [];
        updated_at := 20 |}] ∧
  length (auth_users run.2) ≠ length (auth_users st).
Proof. split_and!; [reflexivity | reflexivity | reflexivity | discriminate]. Qed.

(** C2, for ids that are not None and with the clock as it reads.  Run one
    after the other, [save_user] calls with a provider id other than None keep
    at most one row per (provider, provider_user_id), whatever the store
    answers.  And when a provider's callback signs in twice with the same id,
    the second profile differing as it may, the row count stays as the first
    callback left it, the one row of that identity is rewritten in place with
    the fields normalised from the second profile, and [updated_at] goes from
    the first clock reading to the second, forward when the clock went
    forward. *)
Theorem save_user_sequence_one_per_key (st : state) :
  one_per_key (auth_users st) →
  (∀ cs, Forall (λ c, arg_provider_id c.2 ≠ PNone) cs →
         one_per_key (auth_users (save_all cs st))) ∧
  (∀ w1 req1 w2 req2 p1 p2 r1 r2,
     is_callback (path req1) = true → path req2 = path req1 →
     sign_in w1 req1 st = Some p1 → identity_row w1 req1 = Some r1 →
     sign_in w2 req2 (app w1 req1 st).2 = Some p2 → identity_row w2 req2 = Some r2 →
     provider_user_id r1 ≠ PNone → provider_user_id r2 = provider_user_id r1 →
     let st1 := (app w1 req1 st).2 in
     let st2 := (app w2 req2 st1).2 in
     went_through (app w1 req1 st).1 ∧ went_through (app w2 req2 st1).1 ∧
     row_key r2 = row_key r1 ∧
     ∃ k,
       auth_users st1 !! k = Some r1 ∧
       length (auth_users st2) = length (auth_users st1) ∧
       auth_users st2 = <[k := r2]> (auth_users st1) ∧
       updated_at r1 = utcnow w1 ∧ updated_at r2 = utcnow w2 ∧
       (utcnow w1 < utcnow w2 → updated_at r1 < updated_at r2) ∧
       session st2 !! "user" = Some p2).
Proof.
  intros Hinv. split.
  - intros cs. revert st Hinv. induction cs as [| [w a] cs IH]; intros st Hinv Hids;
      [done |].
    apply Forall_cons in Hids as [Hid Hids]. simpl. apply IH; [| done].
    by apply save_user_one_per_key.
  - intros w1 req1 w2 req2 p1 p2 r1 r2 Hcb Hpath Hin1 Hrow1 Hin2 Hrow2 Hid Hsame st1 st2.
    subst st1 st2.
    destruct (sign_in_run w1 req1 st p1 Hin1) as (d1 & st1' & Hsteps1 & Hsave1 & Hrun1).
    unfold identity_row in Hrow1. rewrite Hsteps1 in Hrow1. injection Hrow1 as ->.
    rewrite Hrun1 in *. simpl in *.
    destruct (sign_in_run w2 req2 _ p2 Hin2) as (d2 & st2' & Hsteps2 & Hsave2 & Hrun2).
    unfold identity_row in Hrow2. rewrite Hsteps2 in Hrow2. injection Hrow2 as ->.
    rewrite Hrun2. simpl.
    destruct (normalized_row w1 req1 p1 r1 Hsteps1) as [Hnow1 Hp1].
    destruct (normalized_row w2 req2 p2 r2 Hsteps2) as [Hnow2 Hp2].
    rewrite Hpath, <- Hp1 in Hp2.
    assert (row_key r2 = row_key r1) as Hkey by (unfold row_key; congruence).
    split; [done |]. split; [done |]. split; [done |].
    destruct (save_data_ok w1 r1 _ st1' Hnow1 Hsave1) as [Hmem1 _].
    assert (one_per_key (auth_users st1')) as Hinv1.
    { pose proof (save_user_one_per_key w1 (provider r1) (provider_user_id r1) (name r1)
                    (email r1) (profile_picture r1) (raw_data r1)
                    (after_calls [CallTokenExchange (provider r1);
                                  CallProfileFetch (provider r1)] st) Hid Hinv) as H.
      by rewrite Hsave1 in H. }
    apply list_elem_of_lookup_1 in Hmem1 as [k Hk]. exists k.
    destruct (save_data_ok w2 r2 _ st2' Hnow2 Hsave2) as [_ [[_ Hrows] | [Hnone _]]].
    + simpl in Hrows.
      rewrite (update_in_place (provider r2) (provider_user_id r2) r2 _ k r1) in Hrows;
        try done.
      * split_and!; try done; [by rewrite Hrows, length_insert | lia
                                | by rewrite lookup_insert_eq].
      * rewrite Hsame, criterion_non_null by done. unfold row_key. congruence.
    + exfalso. simpl in Hnone.
      apply (filter_nil_not_elem_of _ _ r1 Hnone); [| by eapply list_elem_of_lookup_2].
      unfold eq_filter. rewrite Hsame, criterion_non_null by done.
      unfold row_key. congruence.
Qed.

Lemma save_user_sequence_one_per_key_witness :
  let w1 := google_world 20 google_g1 store_up in
  let w2 := google_world 30 [("sub", PStr "g1"); ("name", PStr "B");
                             ("email", PStr "b@x.com")] store_up in
  let st1 := (app w1 (get AuthGoogle []) anonymous).2 in
  let st2 := (app w2 (get AuthGoogle []) st1).2 in
  one_per_key
    (auth_users
       (save_all
          [(offline 20, {| arg_provider := "google"; arg_provider_id := PStr "g1";
                           arg_name := PStr "B"; arg_email := PStr "b@x.com";
                           arg_picture := PNone; arg_raw_data := PDict [] |});
           (offline 30, {| arg_provider := "facebook"; arg_provider_id := PStr "g1";
                           arg_name := PStr "B"; arg_email := PStr "b@x.com";
                           arg_picture := PNone; arg_raw_data := PDict [] |})]
          anonymous)) ∧
  ∃ k r1 r2,
    auth_users st1 !! k = Some r1 ∧
    length (auth_users st2) = length (auth_users st1) ∧
    auth_users st2 = <[k := r2]> (auth_users st1) ∧
    name r1 = PStr "A" ∧ name r2 = PStr "B" ∧ email r2 = PStr "b@x.com" ∧
    updated_at r1 < updated_at r2.
Proof.
  intros w1 w2 st1 st2.
  assert (one_per_key (auth_users anonymous)) as Hinv by apply NoDup_nil_2.
  destruct (save_user_sequence_one_per_key anonymous Hinv) as [Hseq Htwice].
  split; [apply Hseq; by repeat constructor |].
  destruct (Htwice w1 (get AuthGoogle []) w2 (get AuthGoogle [])
              (PDict google_g1)
              (PDict [("sub", PStr "g1"); ("name", PStr "B"); ("email", PStr "b@x.com")])
              {| provider := "google"; provider_user_id := PStr "g1"; name := PStr "A";
                 email := PStr "a@x.com"; profile_picture := PStr "http://g/img";
                 raw_data := PDict google_g1; updated_at := 20 |}
              {| provider := "google"; provider_user_id := PStr "g1"; name := PStr "B";
                 email := PStr "b@x.com"; profile_picture := PNone;
                 raw_data := PDict [("sub", PStr "g1"); ("name", PStr "B");
                                    ("email", PStr "b@x.com")];
                 updated_at := 30 |})
    as (_ & _ & _ & k & Hk & Hlen & Hrows & _ & _ & Hadv & _);
    [reflexivity | reflexivity | reflexivity | reflexivity | reflexivity | reflexivity
     | discriminate | reflexivity |].
  eexists k, _, _. split; [exact Hk |]. split; [exact Hlen |]. split; [exact Hrows |].
  split; [reflexivity |]. split; [reflexivity |]. split; [reflexivity |].
  apply Hadv. reflexivity.
Defined.

(** C2 as worded fails twice over.  Two [save_user] calls with a None id,
    which the callbacks pass for a profile without an id, leave two rows of
    one key; and when the clock reads earlier at the second sign-in than at the
    first, [updated_at] goes back with it. *)
Lemma save_user_sequence_counterexample :
  let null_id := {| arg_provider := "microsoft"; arg_provider_id := PNone;
                    arg_name := PNone; arg_email := PNone; arg_picture := PNone;
                    arg_raw_data := PDict [] |} in
  let twice := save_all [(offline 20, null_id); (offline 30, null_id)] anonymous in
  let w1 := google_world 30 google_g1 store_up in
  let w2 := google_world 20 [("sub", PStr "g1"); ("name", PStr "B")] store_up in
  let st1 := (app w1 (get AuthGoogle []) anonymous).2 in
  let st2 := (app w2 (get AuthGoogle []) st1).2 in
  one_per_key (auth_users anonymous) ∧
  row_key <$> auth_users twice = [("microsoft", PNone); ("microsoft", PNone)] ∧
  ¬ one_per_key (auth_users twice) ∧
  updated_at <$> auth_users st1 = [30] ∧
  updated_at <$> auth_users st2 = [20].
Proof.
  split_and!; [apply NoDup_nil_2 | reflexivity | | reflexivity | reflexivity].
  intros Hdup. apply NoDup_cons in Hdup as [Hnew _]. apply Hnew. left.
Qed.

(** ** Facts about the handlers *)

Ltac run_save :=
  match goal with
  | |- context [save_user ?w ?p ?i ?n ?e ?pic ?raw ?st] =>
      let Hs := fresh "Hsession" in
      let Hr := fresh "Hrows" in
      let Hq := fresh "Hsave" in
      pose proof (save_user_session w p i n e pic raw st) as Hs;
      pose proof (save_user_raise_rows w p i n e pic raw st) as Hr;
      destruct (save_user w p i n e pic raw st) as [[[] | ?ex] ?st'] eqn:Hq;
      simpl in Hs, Hr; [clear Hr | specialize (Hr _ eq_refl)]
  end.

Lemma auth_google_cases (w : World) (st : state) :
  (∃ tok ui st1 st',
     google_authorize_access_token w = Ok tok ∧
     google_userinfo w tok = Ok ui ∧
     save_user w "google" (dict_get ui "sub") (dict_get ui "name")
       (dict_get ui "email") (dict_get ui "picture") (PDict ui) st1 = (Ok (), st') ∧
     session st1 = session st ∧ auth_users st1 = auth_users st ∧
     auth_google w st =
       (Ok (RedirectResponse "/"), with_session (insert "user" (PDict ui)) st')) ∨
  (∃ msg st',
     auth_google w st =
       (Ok (TemplateResponse "error.html" [("message", PStr msg)]), st') ∧
     untouched st st').
Proof.
  unfold auth_google, try_except, bind, call_out, session_setitem, ret. simpl.
  destruct (google_authorize_access_token w) as [tok | e1] eqn:Htok; simpl.
  - destruct (google_userinfo w tok) as [ui | e2] eqn:Hui; simpl.
    + run_save.
      * left. exists tok, ui. eexists _, _. split_and!; try done.
      * right. eexists _, _. split; [done |]. split; [done |]. by rewrite Hrows.
    + right. by eexists _, _.
  - right. by eexists _, _.
Qed.

Ltac failed_callback :=
  right; eexists _, _; split; [reflexivity |]; split; simpl; congruence.

Lemma auth_facebook_cases (w : World) (st : state) :
  (∃ tok resp items p1 pic st1 st',
     facebook_authorize_access_token w = Ok tok ∧
     facebook_get w tok = Ok resp ∧
     json resp = Ok (PDict items) ∧
     py_get_default (default (PDict []) (dict_lookup "picture" items)) "data" (PDict [])
       = Ok p1 ∧
     py_get p1 "url" = Ok pic ∧
     save_user w "facebook" (dict_get items "id") (dict_get items "name")
       (dict_get items "email") pic (PDict items) st1 = (Ok (), st') ∧
     session st1 = session st ∧ auth_users st1 = auth_users st ∧
     auth_facebook w st =
       (Ok (RedirectResponse "/"), with_session (insert "user" (PDict items)) st')) ∨
  (∃ msg st',
     auth_facebook w st =
       (Ok (TemplateResponse "error.html" [("message", PStr msg)]), st') ∧
     untouched st st').
Proof.
  unfold auth_facebook, try_except, bind, call_out, lift, session_setitem, ret. simpl.
  destruct (facebook_authorize_access_token w) as [tok | e1] eqn:Htok; simpl;
    [| failed_callback].
  destruct (facebook_get w tok) as [resp | e2] eqn:Hresp; simpl; [| failed_callback].
  destruct (json resp) as [u | e3] eqn:Hjson; simpl; [| failed_callback].
  destruct u as [| b | z | s | xs | items]; simpl; try failed_callback.
  destruct (py_get_default (default (PDict []) (dict_lookup "picture" items)) "data"
              (PDict [])) as [p1 | e4] eqn:Hp1; simpl; [| failed_callback].
  destruct (py_get p1 "url") as [pic | e5] eqn:Hpic; simpl; [| failed_callback].
  run_save.
  - left. exists tok, resp, items, p1, pic. eexists _, _. split_and!; done.
  - failed_callback.
Qed.

Ltac answered_json :=
  right; eexists _, _; split; [reflexivity |]; split; [left; by eexists | done].

Ltac raised :=
  right; eexists _, _; split; [reflexivity |]; split; [right; by eexists | done].

Lemma auth_redirect_cases (w : World) (req : Request) (st : state) :
  (∃ code result access_token resp items st1 st',
     query_params req !! "code" = Some code ∧ code ≠ "" ∧
     acquire_token_by_authorization_code w (PStr code) = Ok result ∧
     dict_lookup "error" result = None ∧
     dict_lookup "access_token" result = Some access_token ∧
     requests_get w access_token = Ok resp ∧
     json resp = Ok (PDict items) ∧
     save_user w "microsoft" (dict_get items "id") (dict_get items "displayName")
       (py_or (dict_get items "mail") (dict_get items "userPrincipalName")) PNone
       (PDict items) st1 = (Ok (), st') ∧
     session st1 = session st ∧ auth_users st1 = auth_users st ∧
     calls st1 = (calls st ++ [CallTokenExchange "microsoft";
                               CallProfileFetch "microsoft"])%list ∧
     auth_redirect w req st =
       (Ok (RedirectResponse "/"), with_session (insert "user" (PDict items)) st')) ∨
  (∃ out st',
     auth_redirect w req st = (out, st') ∧
     ((∃ body, out = Ok (JSONResponse body)) ∨ (∃ ex, out = Raise ex)) ∧
     untouched st st').
Proof.
  unfold auth_redirect, query_get.
  destruct (query_params req !! "code") as [code |] eqn:Hcode; simpl; [| answered_json].
  case_bool_decide as Hne; simpl; [answered_json |].
  unfold bind, call_out, lift, session_setitem, ret. simpl.
  destruct (acquire_token_by_authorization_code w (PStr code)) as [result | e1] eqn:Htok;
    simpl; [| raised].
  unfold dict_contains. case_bool_decide as Herr; simpl; [answered_json |].
  apply eq_None_not_Some in Herr.
  unfold dict_getitem.
  destruct (dict_lookup "access_token" result) as [access_token |] eqn:Hat; simpl;
    [| raised].
  destruct (requests_get w access_token) as [resp | e2] eqn:Hresp; simpl; [| raised].
  destruct (json resp) as [u | e3] eqn:Hjson; simpl; [| raised].
  destruct u as [| b | z | s | xs | items]; simpl; try raised.
  fold (dict_get items "id") (dict_get items "displayName") (dict_get items "mail").
  destruct (truthy (dict_get items "mail")) eqn:Hmail; simpl; run_save.
  - left. exists code, result, access_token, resp, items. eexists _, _.
    unfold py_or. rewrite Hmail. split_and!; try done.
    simpl. by rewrite <- app_assoc.
  - right. eexists _, _. split; [done |]. split; [right; by eexists |].
    split; simpl; congruence.
  - left. exists code, result, access_token, resp, items. eexists _, _.
    unfold py_or. rewrite Hmail. split_and!; try done.
    simpl. by rewrite <- app_assoc.
  - right. eexists _, _. split; [done |]. split; [right; by eexists |].
    split; simpl; congruence.
Qed.

(** ** Callbacks that fail *)

(** C3, at the input where it breaks.  The Google and Facebook callbacks
    return a response on every input, the error page when a step raised; the
    Microsoft callback, given a code, a token and a profile, lets the exception
    of a store that is down leave the handler. *)
Theorem auth_redirect_exception_escapes :
  (∀ w st, ∃ resp, (auth_google w st).1 = Ok resp) ∧
  (∀ w st, ∃ resp, (auth_facebook w st).1 = Ok resp) ∧
  auth_google (google_world 20 google_g1 store_down) anonymous
    = (Ok (TemplateResponse "error.html" [("message", PStr "storage unavailable")]),
       {| session := ∅; auth_users := [];
          calls := [CallTokenExchange "google"; CallProfileFetch "google";
                    CallSelect "google" (PStr "g1")] |}) ∧
  auth_redirect (microsoft_world 20 (microsoft_m1 PNone) store_down)
      (get AuthRedirect [("code", "abc")]) anonymous
    = (Raise (UpstreamError "storage unavailable"),
       {| session := ∅; auth_users := [];
          calls := [CallTokenExchange "microsoft"; CallProfileFetch "microsoft";
                    CallSelect "microsoft" (PStr "m1")] |}).
Proof.
  split_and!.
  - intros w st. destruct (auth_google_cases w st)
      as [(? & ? & ? & ? & _ & _ & _ & _ & _ & ->) | (? & ? & -> & _)]; by eexists.
  - intros w st. destruct (auth_facebook_cases w st)
      as [(? & ? & ? & ? & ? & ? & ? & _ & _ & _ & _ & _ & _ & _ & _ & ->)
         | (? & ? & -> & _)]; by eexists.
  - reflexivity.
  - reflexivity.
Qed.

(** C4, where it holds and where it breaks.  A callback in which a step
    raises, or in which MSAL answers the token exchange with an error, ends
    without the redirect and leaves the "user" entry of the session and the
    table as they were:
    this holds of every callback request that does not sign in, and so of a
    failing token exchange, a failing profile fetch and a failing store.  But
    an error document that Graph or Facebook answers the profile fetch with is
    a profile like any other to the handler: it is saved as a row and put
    under "user". *)
Theorem failed_callback_leaves_state :
  (∀ w req st,
     is_callback (path req) = true → sign_in w req st = None → leaves_state w req st) ∧
  (∀ w req st e,
     (path req = AuthGoogle ∧ google_authorize_access_token w = Raise e) ∨
     (path req = AuthFacebook ∧ facebook_authorize_access_token w = Raise e) ∨
     (path req = AuthRedirect ∧ ∃ code, query_params req !! "code" = Some code ∧
        acquire_token_by_authorization_code w (PStr code) = Raise e) →
     leaves_state w req st) ∧
  (∀ w req st err,
     (path req = AuthRedirect ∧ ∃ code result, query_params req !! "code" = Some code ∧
        acquire_token_by_authorization_code w (PStr code) = Ok result ∧
        dict_lookup "error" result = Some err) →
     leaves_state w req st) ∧
  (∀ w req st e,
     (path req = AuthGoogle ∧ ∃ tok, google_authorize_access_token w = Ok tok ∧
        google_userinfo w tok = Raise e) ∨
     (path req = AuthFacebook ∧ ∃ tok, facebook_authorize_access_token w = Ok tok ∧
        (facebook_get w tok = Raise e ∨
         ∃ resp, facebook_get w tok = Ok resp ∧ json resp = Raise e)) ∨
     (path req = AuthRedirect ∧ ∃ code result access_token,
        query_params req !! "code" = Some code ∧
        acquire_token_by_authorization_code w (PStr code) = Ok result ∧
        dict_lookup "error" result = None ∧
        dict_lookup "access_token" result = Some access_token ∧
        (requests_get w access_token = Raise e ∨
         ∃ resp, requests_get w access_token = Ok resp ∧ json resp = Raise e)) →
     leaves_state w req st) ∧
  (∀ w req st data e,
     is_callback (path req) = true → identity_row w req = Some data →
     store_raises w data (auth_users st) = Some e →
     leaves_state w req st) ∧
  (let reply := PDict [("error", PDict [("code", PStr "InvalidAuthenticationToken")])] in
   let run := auth_redirect (microsoft_world 20 reply store_up)
                (get AuthRedirect [("code", "abc")]) anonymous in
   run.1 = Ok (RedirectResponse "/") ∧
   session run.2 !! "user" = Some reply ∧
   auth_users run.2 =
     [{| provider := "microsoft"; provider_user_id := PNone; name := PNone;
         email := PNone; profile_picture := PNone; raw_data := reply;
         updated_at := 20 |}]) ∧
  (let reply := PDict [("error", PDict [("type", PStr "OAuthException")])] in
   let run := auth_facebook (facebook_world 20 reply store_up) anonymous in
   run.1 = Ok (RedirectResponse "/") ∧
   session run.2 !! "user" = Some reply ∧
   auth_users run.2 =
     [{| provider := "facebook"; provider_user_id := PNone; name := PNone;
         email := PNone; profile_picture := PNone; raw_data := reply;
         updated_at := 20 |}]).
Proof.
  assert (∀ w req st, is_callback (path req) = true → sign_in w req st = None →
                      leaves_state w req st) as Hgeneral.
  { intros w req st Hcb Hnone.
    destruct (no_sign_in_run w req st Hcb Hnone) as (Hfail & Hs & Hrows).
    split_and!; [done | by rewrite Hs | by apply state_of_user; rewrite Hs | done]. }
  split_and!; [done | | | | | done | done].
  - intros w req st e [[Hpath H] | [[Hpath H] | [Hpath (code & Hcode & H)]]];
      (apply Hgeneral; [by rewrite Hpath |]);
      unfold sign_in, callback_steps; rewrite Hpath.
    + unfold google_steps. by rewrite H.
    + unfold facebook_steps. by rewrite H.
    + unfold microsoft_steps. rewrite Hcode. destruct code; [done |]. by rewrite H.
  - intros w req st err [Hpath (code & result & Hcode & H & Herr)].
    apply Hgeneral; [by rewrite Hpath |].
    unfold sign_in, callback_steps; rewrite Hpath.
    unfold microsoft_steps. rewrite Hcode. destruct code; [done |]. by rewrite H, Herr.
  - intros w req st e
      [[Hpath (tok & Htok & H)] | [[Hpath (tok & Htok & H)]
       | [Hpath (code & result & access_token & Hcode & Htok & Herr & Hat & H)]]];
      (apply Hgeneral; [by rewrite Hpath |]);
      unfold sign_in, callback_steps; rewrite Hpath.
    + unfold google_steps. by rewrite Htok, H.
    + unfold facebook_steps. rewrite Htok.
      destruct H as [-> | (resp & -> & ->)]; done.
    + unfold microsoft_steps. rewrite Hcode. destruct code; [done |].
      rewrite Htok, Herr, Hat. destruct H as [-> | (resp & -> & ->)]; done.
  - intros w req st data e Hcb Hrow Hstore. apply Hgeneral; [done |].
    unfold sign_in. unfold identity_row in Hrow.
    destruct (callback_steps w req) as [[|] |]; try done.
    injection Hrow as ->. by rewrite Hstore.
Qed.

(** ** Logout and the missing code *)

(** C6. From every state, logout empties the session, answers with a redirect
    to the home page and leaves the table (and the log of outbound calls) as it
    was; the home page fetched next sees no user. *)
Theorem logout_clears_session (st : state) :
  logout st =
    (Ok (RedirectResponse "/"),
     {| session := ∅; auth_users := auth_users st; calls := calls st |}) ∧
  session (logout st).2 !! "user" = None ∧
  (home (logout st).2).1 = Ok (TemplateResponse "home.html" [("user", PNone)]).
Proof. split_and!; reflexivity. Qed.

(** C10. Without a [code] query parameter, or with an empty one, the Microsoft
    callback answers the JSON object with the single key "error" and the state
    it returns is the state it got: no outbound call is logged, no row and no
    session entry is written. *)
Theorem auth_redirect_missing_code (w : World) (req : Request) (st : state) :
  query_params req !! "code" = None ∨ query_params req !! "code" = Some "" →
  ∃ body,
    auth_redirect w req st = (Ok (JSONResponse (PDict body)), st) ∧
    body = [("error", PStr "Missing authorization code")] ∧
    dict_lookup "description" body = None.
Proof.
  intros Hcode. eexists. split_and!; [| reflexivity | reflexivity].
  unfold auth_redirect, query_get. by destruct Hcode as [-> | ->].
Qed.

Lemma auth_redirect_missing_code_witness :
  ∃ body,
    auth_redirect (microsoft_world 20 (microsoft_m1 PNone) store_up)
      (get AuthRedirect [("code", "")]) signed_in
      = (Ok (JSONResponse (PDict body)), signed_in) ∧
    body = [("error", PStr "Missing authorization code")] ∧
    dict_lookup "description" body = None.
Proof. apply auth_redirect_missing_code. right. reflexivity. Defined.

(** ** Profile normalisation *)

Lemma nested_picture (items : list (string * pyval)) (p1 pic : pyval) :
  py_get_default (default (PDict []) (dict_lookup "picture" items)) "data" (PDict [])
    = Ok p1 →
  py_get p1 "url" = Ok pic →
  nested ["picture"; "data"; "url"] (PDict items) = pic.
Proof.
  simpl. destruct (dict_lookup "picture" items) as [[| | | | | pitems] |]; simpl;
    try discriminate.
  - intros [= <-]. destruct (dict_lookup "data" pitems) as [[| | | | | ditems] |];
      simpl; try discriminate.
    + intros [= <-]. by destruct (dict_lookup "url" ditems).
    + by intros [= <-].
  - intros [= <-]. simpl. by intros [= <-].
Qed.

Lemma auth_facebook_success (w : World) (st : state) tok resp items p1 pic :
  facebook_authorize_access_token w = Ok tok →
  facebook_get w tok = Ok resp →
  json resp = Ok (PDict items) →
  py_get_default (default (PDict []) (dict_lookup "picture" items)) "data" (PDict [])
    = Ok p1 →
  py_get p1 "url" = Ok pic →
  no_fault w →
  ∃ st',
    save_user w "facebook" (dict_get items "id") (dict_get items "name")
      (dict_get items "email") pic (PDict items)
      (log_call (CallProfileFetch "facebook") (log_call (CallTokenExchange "facebook") st))
      = (Ok (), st') ∧
    auth_facebook w st =
      (Ok (RedirectResponse "/"), with_session (insert "user" (PDict items)) st').
Proof.
  intros Htok Hresp Hjson Hp1 Hpic Hnf.
  unfold auth_facebook, try_except, bind, call_out, lift, session_setitem, ret. simpl.
  rewrite Htok. simpl. rewrite Hresp. simpl. rewrite Hjson. simpl.
  rewrite Hp1. simpl. rewrite Hpic. simpl.
  fold (dict_get items "id") (dict_get items "name") (dict_get items "email").
  pose proof (save_user_no_fault_ok w "facebook" (dict_get items "id")
                (dict_get items "name") (dict_get items "email") pic (PDict items)
                (log_call (CallProfileFetch "facebook")
                   (log_call (CallTokenExchange "facebook") st)) Hnf) as Hok.
  destruct (save_user _ _ _ _ _ _ _ _) as [[[] | ex] st'] eqn:Hsave; [| done].
  by exists st'.
Qed.

(** C7. When the Facebook callback goes through with profile [u], the row it
    leaves for that identity (the one row of that key, when the id is not
    None) carries as picture the value at the nested path picture.data.url of
    [u] ([None] where the path ends early); a profile that
    has the three levels goes through whenever the store answers; and the
    profile with id f1 and nested url http://img is stored with picture
    http://img. *)
Theorem facebook_picture_from_nested_path (w : World) (st : state) tok resp u :
  facebook_authorize_access_token w = Ok tok →
  facebook_get w tok = Ok resp →
  json resp = Ok u →
  (went_through (auth_facebook w st).1 →
     ∃ data,
       data ∈ auth_users (auth_facebook w st).2 ∧
       row_key data = ("facebook", nested ["id"] u) ∧
       raw_data data = u ∧
       profile_picture data = nested ["picture"; "data"; "url"] u ∧
       (nested ["id"] u ≠ PNone →
        ∀ r, r ∈ auth_users (auth_facebook w st).2 → row_key r = row_key data →
             r = data)) ∧
  (∀ items pitems ditems url,
     no_fault w →
     u = PDict items →
     dict_lookup "picture" items = Some (PDict pitems) →
     dict_lookup "data" pitems = Some (PDict ditems) →
     dict_lookup "url" ditems = Some url →
     went_through (auth_facebook w st).1 ∧
     nested ["picture"; "data"; "url"] u = url) ∧
  (no_fault w → u = facebook_f1 →
     went_through (auth_facebook w st).1 ∧
     {| provider := "facebook"; provider_user_id := PStr "f1"; name := PStr "A";
        email := PStr "a@x.com"; profile_picture := PStr "http://img";
        raw_data := facebook_f1; updated_at := utcnow w |}
       ∈ auth_users (auth_facebook w st).2).
Proof.
  intros Htok Hresp Hjson. split_and!.
  - intros Hwent. destruct (auth_facebook_cases w st)
      as [(tok' & resp' & items & p1 & pic & st1 & st' & Htok' & Hresp' & Hjson'
           & Hp1 & Hpic & Hsave & _ & _ & Heq) | (? & ? & Heq & _)];
      rewrite Heq in *; [| done]. simpl.
    rewrite Htok in Htok'. injection Htok' as <-.
    rewrite Hresp in Hresp'. injection Hresp' as <-.
    rewrite Hjson in Hjson'. injection Hjson' as ->.
    apply save_user_ok_inv in Hsave as (_ & Hin & _ & Huniq).
    eexists. split; [exact Hin |]. split_and!; simpl.
    + unfold dict_get. by destruct (dict_lookup "id" items).
    + done.
    + symmetry. by apply (nested_picture items p1 pic).
    + intros Hid r Hr Hkey. apply Huniq; [| done |].
      * unfold dict_get. by destruct (dict_lookup "id" items).
      * rewrite Hkey. done.
  - intros items pitems ditems url Hnf -> Hpic Hdata Hurl.
    destruct (auth_facebook_success w st tok resp items (PDict ditems) url)
      as (st' & _ & ->); try done.
    + rewrite Hpic. simpl. by rewrite Hdata.
    + unfold py_get. simpl. by rewrite Hurl.
    + split; [done |]. simpl. by rewrite Hpic, Hdata, Hurl.
  - intros Hnf ->.
    destruct (auth_facebook_success w st tok resp _ _ (PStr "http://img")
                Htok Hresp Hjson eq_refl eq_refl Hnf) as (st' & Hsave & ->).
    split; [done |]. simpl.
    by apply save_user_ok_inv in Hsave as (_ & Hin & _).
Qed.

Lemma facebook_picture_from_nested_path_witness :
  went_through (auth_facebook (facebook_world 20 facebook_f1 store_up) signed_in).1 ∧
  {| provider := "facebook"; provider_user_id := PStr "f1"; name := PStr "A";
     email := PStr "a@x.com"; profile_picture := PStr "http://img";
     raw_data := facebook_f1; updated_at := 20 |}
    ∈ auth_users (auth_facebook (facebook_world 20 facebook_f1 store_up) signed_in).2.
Proof.
  destruct (facebook_picture_from_nested_path (facebook_world 20 facebook_f1 store_up)
              signed_in (PDict [("access_token", PStr "f-token")])
              {| json := Ok facebook_f1 |} facebook_f1 eq_refl eq_refl eq_refl)
    as (_ & _ & Hf1).
  apply Hf1; [intros op; reflexivity | reflexivity].
Defined.

(** C8, as the handler has it.  When the Microsoft callback goes through with
    the Graph profile [items], the row it leaves for that identity carries as
    e-mail the [mail] value when that value is truthy (present, not null and
    not empty) and the [userPrincipalName] value otherwise; with [mail] null or
    missing that is the [userPrincipalName]. *)
Theorem microsoft_email_mail_or_principal (w : World) (req : Request) (st : state) :
  went_through (auth_redirect w req st).1 →
  ∃ code result access_token resp items data,
    query_params req !! "code" = Some code ∧
    acquire_token_by_authorization_code w (PStr code) = Ok result ∧
    dict_lookup "access_token" result = Some access_token ∧
    requests_get w access_token = Ok resp ∧
    json resp = Ok (PDict items) ∧
    data ∈ auth_users (auth_redirect w req st).2 ∧
    row_key data = ("microsoft", dict_get items "id") ∧
    raw_data data = PDict items ∧
    email data = mail_or_principal items ∧
    (truthy (dict_get items "mail") = true → email data = dict_get items "mail") ∧
    (truthy (dict_get items "mail") = false →
       email data = dict_get items "userPrincipalName") ∧
    (dict_lookup "mail" items = Some PNone ∨ dict_lookup "mail" items = None →
       email data = dict_get items "userPrincipalName") ∧
    (dict_get items "id" ≠ PNone →
     ∀ r, r ∈ auth_users (auth_redirect w req st).2 → row_key r = row_key data →
          r = data).
Proof.
  intros Hwent. destruct (auth_redirect_cases w req st)
    as [(code & result & access_token & resp & items & st1 & st' & Hcode & _ & Htok
         & _ & Hat & Hresp & Hjson & Hsave & _ & _ & _ & Heq)
       | (out & st' & Heq & [[body ->] | [ex ->]] & _)];
    rewrite Heq in *; [| done | done]. simpl.
  apply save_user_ok_inv in Hsave as (_ & Hin & _ & Huniq).
  exists code, result, access_token, resp, items. eexists.
  split_and!; try done; simpl; unfold mail_or_principal, py_or.
  - by intros ->.
  - by intros ->.
  - unfold dict_get. by intros [-> | ->].
Qed.

Lemma microsoft_email_mail_or_principal_witness :
  ∃ data,
    data ∈ auth_users
             (auth_redirect (microsoft_world 20 (microsoft_m1 PNone) store_up)
                (get AuthRedirect [("code", "abc")]) anonymous).2 ∧
    row_key data = ("microsoft", PStr "m1") ∧
    email data = PStr "a@x.com".
Proof.
  destruct (microsoft_email_mail_or_principal
              (microsoft_world 20 (microsoft_m1 PNone) store_up)
              (get AuthRedirect [("code", "abc")]) anonymous)
    as (code & result & access_token & resp & items & data & _ & _ & _ & Hresp & Hjson
        & Hin & Hkey & _ & Hmail & _);
    [reflexivity |].
  injection Hresp as <-. injection Hjson as <-.
  exists data. split; [exact Hin |]. split; [exact Hkey | exact Hmail].
Defined.

(** C8 as worded fails on an empty [mail]: the key is present and the value
    is not null, yet the stored e-mail is the [userPrincipalName]. *)
Lemma microsoft_email_empty_mail_counterexample :
  let profile := [("id", PStr "m1"); ("displayName", PStr "A"); ("mail", PStr "");
                  ("userPrincipalName", PStr "a@x.com")] in
  let run := auth_redirect (microsoft_world 20 (PDict profile) store_up)
               (get AuthRedirect [("code", "abc")]) anonymous in
  run.1 = Ok (RedirectResponse "/") ∧
  auth_users run.2 =
    [{| provider := "microsoft"; provider_user_id := PStr "m1"; name := PStr "A";
        email := PStr "a@x.com"; profile_picture := PNone;
        raw_data := PDict profile; updated_at := 20 |}] ∧
  mail_when_present_and_non_null profile = PStr "" ∧
  email <$> auth_users run.2 ≠ [mail_when_present_and_non_null profile].
Proof. split_and!; [reflexivity | reflexivity | reflexivity | discriminate]. Qed.

(** C9. When the Microsoft callback goes through, whatever Graph returned,
    the one row it hands to the store (the last outbound call, an update or an
    insert) has [profile_picture] None; that row is in the table afterwards and
    every other row of the table was there before. *)
Theorem microsoft_picture_is_none (w : World) (req : Request) (st : state) :
  went_through (auth_redirect w req st).1 →
  ∃ data pre,
    provider data = "microsoft" ∧
    profile_picture data = PNone ∧
    (calls (auth_redirect w req st).2 = (pre ++ [CallUpdate data])%list ∨
     calls (auth_redirect w req st).2 = (pre ++ [CallInsert data])%list) ∧
    (∀ d, CallUpdate d ∈ pre ∨ CallInsert d ∈ pre →
          CallUpdate d ∈ calls st ∨ CallInsert d ∈ calls st) ∧
    data ∈ auth_users (auth_redirect w req st).2 ∧
    ∀ r, r ∈ auth_users (auth_redirect w req st).2 → r ∈ auth_users st ∨ r = data.
Proof.
  intros Hwent. destruct (auth_redirect_cases w req st)
    as [(code & result & access_token & resp & items & st1 & st' & _ & _ & _
         & _ & _ & _ & _ & Hsave & _ & Hrows & Hcalls & Heq)
       | (out & st' & Heq & [[body ->] | [ex ->]] & _)];
    rewrite Heq in *; [| done | done]. simpl.
  apply save_user_ok_inv in Hsave as (Hlog & Hin & Hold & _).
  rewrite Hrows in Hold. rewrite Hcalls in Hlog.
  match type of Hin with ?d ∈ _ => exists d end.
  exists (calls st ++ [CallTokenExchange "microsoft"; CallProfileFetch "microsoft";
                       CallSelect "microsoft" (dict_get items "id")])%list.
  split_and!; try done.
  - destruct Hlog as [Hlog | Hlog]; [left | right]; simpl; rewrite Hlog;
      by rewrite <- !app_assoc.
  - intros d [Hd | Hd]; apply elem_of_app in Hd as [Hd | Hd]; eauto;
      repeat (apply elem_of_cons in Hd as [Hd | Hd]; [discriminate |]);
      by apply elem_of_nil in Hd.
Qed.

Lemma microsoft_picture_is_none_witness :
  ∃ data,
    provider data = "microsoft" ∧
    profile_picture data = PNone ∧
    data ∈ auth_users
             (auth_redirect
                (microsoft_world 20
                   (PDict [("id", PStr "m1"); ("photo", PStr "http://img")]) store_up)
                (get AuthRedirect [("code", "abc")]) signed_in).2.
Proof.
  destruct (microsoft_picture_is_none
              (microsoft_world 20
                 (PDict [("id", PStr "m1"); ("photo", PStr "http://img")]) store_up)
              (get AuthRedirect [("code", "abc")]) signed_in)
    as (data & pre & Hp & Hpic & _ & _ & Hin & _); [reflexivity |].
  exists data. split; [exact Hp |]. split; [exact Hpic | exact Hin].
Defined.

(** ** The session state machine *)


Lemma state_key_not_user (idp s : string) : "_state_" +:+ idp +:+ "_" +:+ s ≠ "user".
Proof. discriminate. Qed.







(** ** More on [save_user]: what a call leaves alone *)

Section upsert_frame.
Context (w : World) (p : string) (i n e pic raw : pyval).

Let data : row :=
  {| provider := p; provider_user_id := i; name := n; email := e;
     profile_picture := pic; raw_data := raw; updated_at := utcnow w |}.

Let rewrite_row (r : row) : row := if decide (eq_filter p i r) then data else r.

(** The three tables a call can leave. *)
Lemma save_user_rows (st : state) :
  auth_users (save_user w p i n e pic raw st).2 = auth_users st ∨
  (filter (eq_filter p i) (auth_users st) ≠ [] ∧
   auth_users (save_user w p i n e pic raw st).2 = rewrite_row <$> auth_users st) ∨
  (filter (eq_filter p i) (auth_users st) = [] ∧
   auth_users (save_user w p i n e pic raw st).2 = (auth_users st ++ [data])%list).
Proof.
  rewrite save_user_run. simpl. destruct (supabase_fault w OpSelect); [by left |].
  case_bool_decide as Hex; unfold execute_update, execute_insert.
  - destruct (supabase_fault w OpUpdate); [by left |].
    right; left. split; [done | reflexivity].
  - destruct (supabase_fault w OpInsert); [by left |].
    right; right. split; [done | reflexivity].
Qed.

Lemma save_user_no_fault_rows (st : state) :
  no_fault w →
  (filter (eq_filter p i) (auth_users st) ≠ [] ∧
   auth_users (save_user w p i n e pic raw st).2 = rewrite_row <$> auth_users st) ∨
  (filter (eq_filter p i) (auth_users st) = [] ∧
   auth_users (save_user w p i n e pic raw st).2 = (auth_users st ++ [data])%list).
Proof.
  intros Hnf. rewrite save_user_run. simpl. rewrite (Hnf OpSelect).
  case_bool_decide as Hex; unfold execute_update, execute_insert.
  - rewrite (Hnf OpUpdate). left. split; [done | reflexivity].
  - rewrite (Hnf OpInsert). right. split; [done | reflexivity].
Qed.

Lemma rewrite_row_other (r : row) : ¬ eq_filter p i r → rewrite_row r = r.
Proof. intros Hne. unfold rewrite_row. by rewrite decide_False. Qed.

Lemma data_selected : i ≠ PNone → eq_filter p i data.
Proof. intros Hi. unfold eq_filter. by rewrite criterion_non_null. Qed.

Lemma data_not_selected : i = PNone → ¬ eq_filter p i data.
Proof. intros ->. unfold eq_filter, row_key. simpl. congruence. Qed.

Lemma rewrite_row_key (r : row) : i ≠ PNone → row_key (rewrite_row r) = row_key r.
Proof.
  intros Hi. unfold rewrite_row. case_decide as Hr; [| done].
  unfold eq_filter in Hr. rewrite Hr. by rewrite criterion_non_null.
Qed.

Lemma rewrite_row_idemp (r : row) : rewrite_row (rewrite_row r) = rewrite_row r.
Proof.
  unfold rewrite_row. destruct (decide (eq_filter p i r)) as [Hr | Hr].
  - by case_decide.
  - by rewrite decide_False.
Qed.

Lemma rewrite_rows_none (rows : list row) :
  filter (eq_filter p i) rows = [] → rewrite_row <$> rows = rows.
Proof.
  intros Hnone. rewrite <- (list_fmap_id rows) at 2. apply list_fmap_ext.
  intros k r Hk. apply rewrite_row_other. intros Hkey.
  apply (filter_nil_not_elem_of (eq_filter p i) rows r Hnone Hkey).
  by eapply list_elem_of_lookup_2.
Qed.

Lemma filter_rewrite_rows (rows : list row) :
  i ≠ PNone →
  filter (eq_filter p i) (rewrite_row <$> rows)
  = (λ _, data) <$> filter (eq_filter p i) rows.
Proof.
  intros Hi. induction rows as [| r rows IH]; [done |]. rewrite fmap_cons.
  destruct (decide (eq_filter p i r)) as [Hr | Hr].
  - assert (rewrite_row r = data) as -> by (unfold rewrite_row; by rewrite decide_True).
    rewrite (filter_cons_True _ data) by by apply data_selected.
    rewrite (filter_cons_True _ r) by done. by rewrite fmap_cons, IH.
  - rewrite rewrite_row_other by done. by rewrite !filter_cons_False.
Qed.

Lemma filter_rewrite_rows_null (rows : list row) :
  i = PNone → filter (eq_filter p i) (rewrite_row <$> rows) = [].
Proof.
  intros Hi. induction rows as [| r rows IH]; [done |]. rewrite fmap_cons.
  destruct (decide (eq_filter p i r)) as [Hr | Hr].
  - assert (rewrite_row r = data) as -> by (unfold rewrite_row; by rewrite decide_True).
    rewrite filter_cons_False by by apply data_not_selected. done.
  - rewrite rewrite_row_other by done. by rewrite filter_cons_False.
Qed.

Lemma save_user_lookup_other (st : state) (k : nat) (r : row) :
  auth_users st !! k = Some r → ¬ eq_filter p i r →
  auth_users (save_user w p i n e pic raw st).2 !! k = Some r.
Proof.
  intros Hk Hne. destruct (save_user_rows st) as [-> | [[_ ->] | [_ ->]]]; [done | |].
  - rewrite list_lookup_fmap, Hk. simpl. by rewrite rewrite_row_other.
  - by apply lookup_app_l_Some.
Qed.
End upsert_frame.

(** An id None selects the rows that hold the text None, and the update
    writes its NULL id over theirs. *)
Lemma null_id_rewrites_text_none :
  let held := {| provider := "google"; provider_user_id := PStr "None"; name := PStr "A";
                 email := PNone; profile_picture := PNone; raw_data := PDict [];
                 updated_at := 10 |} in
  let st := {| session := ∅; auth_users := [held]; calls := [] |} in
  row_key <$> auth_users (save_user (offline 20) "google" PNone (PStr "B") PNone PNone
                            (PDict []) st).2
  = [("google", PNone)].
Proof. reflexivity. Qed.

(** X1. Whatever the store answers, a [save_user] call changes the row count
    by zero or one and leaves every row that its filter does not select where
    it was and as it was; for a provider id other than None these are the rows
    of every other key, and no row is moved or re-keyed. *)
Theorem save_user_keeps_other_rows (w : World) (p : string) (i n e pic raw : pyval)
    (st : state) :
  (length (auth_users st) ≤ length (auth_users (save_user w p i n e pic raw st).2)
   ≤ S (length (auth_users st)))%nat ∧
  (∀ k r, auth_users st !! k = Some r → row_key r ≠ (p, criterion i) →
          auth_users (save_user w p i n e pic raw st).2 !! k = Some r) ∧
  (i ≠ PNone →
   (∀ k r, auth_users st !! k = Some r → row_key r ≠ (p, i) →
           auth_users (save_user w p i n e pic raw st).2 !! k = Some r) ∧
   (∀ k r, auth_users st !! k = Some r →
           ∃ r', auth_users (save_user w p i n e pic raw st).2 !! k = Some r' ∧
                 row_key r' = row_key r)).
Proof.
  split; [| split].
  - destruct (save_user_rows w p i n e pic raw st) as [-> | [[_ ->] | [_ ->]]].
    + lia.
    + rewrite length_fmap. lia.
    + rewrite length_app. simpl. lia.
  - intros k r. apply save_user_lookup_other.
  - intros Hi. split.
    + intros k r Hk Hne. apply save_user_lookup_other; [done |].
      unfold eq_filter. by rewrite criterion_non_null.
    + intros k r Hk.
      destruct (save_user_rows w p i n e pic raw st) as [-> | [[_ ->] | [_ ->]]].
      * by exists r.
      * eexists. rewrite list_lookup_fmap, Hk. split; [done |].
        by apply rewrite_row_key.
      * exists r. split; [by apply lookup_app_l_Some | done].
Qed.

Lemma save_user_keeps_other_rows_witness :
  auth_users (save_user (offline 20) "facebook" (PStr "g1") (PStr "B") PNone PNone
                (PDict []) signed_in).2 !! 0%nat
  = auth_users signed_in !! 0%nat.
Proof.
  destruct (save_user_keeps_other_rows (offline 20) "facebook" (PStr "g1") (PStr "B")
              PNone PNone (PDict []) signed_in) as (_ & _ & Hother).
  destruct Hother as [Hother _]; [discriminate |].
  apply (Hother 0%nat); [reflexivity | discriminate].
Defined.

(** X2. With a store that answers and a provider id other than None,
    repeating a [save_user] call with the same arguments at the same clock
    reading changes nothing: the table after the second call is the table
    after the first.  With the id None it is not so: the repeated call finds
    no row and appends the row once more. *)
Theorem save_user_idempotent (w : World) (p : string) (i n e pic raw : pyval)
    (st : state) :
  no_fault w →
  (i ≠ PNone →
   auth_users (save_user w p i n e pic raw (save_user w p i n e pic raw st).2).2
   = auth_users (save_user w p i n e pic raw st).2) ∧
  (i = PNone →
   auth_users (save_user w p i n e pic raw (save_user w p i n e pic raw st).2).2
   = (auth_users (save_user w p i n e pic raw st).2 ++
        [{| provider := p; provider_user_id := i; name := n; email := e;
            profile_picture := pic; raw_data := raw; updated_at := utcnow w |}])%list).
Proof.
  intros Hnf. split; intros Hi.
  - pose proof (save_user_writes_row w p i n e pic raw st Hnf) as Hin.
    destruct (save_user_no_fault_rows w p i n e pic raw
                (save_user w p i n e pic raw st).2 Hnf) as [[_ ->] | [Hnone _]].
    + destruct (save_user_no_fault_rows w p i n e pic raw st Hnf)
        as [[_ ->] | [Hnone ->]].
      * rewrite <- list_fmap_compose. apply list_fmap_ext.
        intros k r _. apply rewrite_row_idemp.
      * rewrite fmap_app, rewrite_rows_none by done. simpl.
        rewrite decide_True; [done |]. by apply data_selected.
    + exfalso. revert Hin.
      apply (filter_nil_not_elem_of (eq_filter p i) _ _ Hnone).
      by apply data_selected.
  - destruct (save_user_no_fault_rows w p i n e pic raw
                (save_user w p i n e pic raw st).2 Hnf) as [[Hsome _] | [_ ->]];
      [| done].
    exfalso. apply Hsome.
    destruct (save_user_no_fault_rows w p i n e pic raw st Hnf)
      as [[_ ->] | [Hnone ->]].
    + by apply filter_rewrite_rows_null.
    + rewrite filter_app, Hnone, filter_cons_False; [done |].
      by apply data_not_selected.
Qed.

Lemma save_user_idempotent_witness :
  auth_users (save_user (offline 20) "google" (PStr "g1") (PStr "B") PNone PNone (PDict [])
                (save_user (offline 20) "google" (PStr "g1") (PStr "B") PNone PNone
                   (PDict []) signed_in).2).2
  = auth_users (save_user (offline 20) "google" (PStr "g1") (PStr "B") PNone PNone
                  (PDict []) signed_in).2 ∧
  length (auth_users
            (save_user (offline 20) "google" PNone (PStr "B") PNone PNone (PDict [])
               (save_user (offline 20) "google" PNone (PStr "B") PNone PNone
                  (PDict []) signed_in).2).2) = 3%nat.
Proof.
  split.
  - apply save_user_idempotent; [intros op; reflexivity | discriminate].
  - destruct (save_user_idempotent (offline 20) "google" PNone (PStr "B") PNone PNone
                (PDict []) signed_in) as [_ Hnull]; [intros op; reflexivity |].
    rewrite Hnull; reflexivity.
Defined.

(** X3. A call never merges or removes rows that share its key: with a store
    that answers and a provider id other than None, the number of rows of the
    key afterwards is the number before, or one when there was none, and each
    of them is the row just written. *)
Theorem save_user_keeps_duplicates (w : World) (p : string) (i n e pic raw : pyval)
    (st : state) :
  i ≠ PNone →
  no_fault w →
  length (filter (λ r, row_key r = (p, i))
            (auth_users (save_user w p i n e pic raw st).2))
  = (length (filter (λ r, row_key r = (p, i)) (auth_users st)) `max` 1)%nat ∧
  ∀ r, r ∈ auth_users (save_user w p i n e pic raw st).2 → row_key r = (p, i) →
       r = {| provider := p; provider_user_id := i; name := n; email := e;
              profile_picture := pic; raw_data := raw; updated_at := utcnow w |}.
Proof.
  intros Hi Hnf.
  assert (∀ rows : list row,
            filter (λ r, row_key r = (p, i)) rows = filter (eq_filter p i) rows)
    as Hsame.
  { intros rows. apply list_filter_iff. intros r. unfold eq_filter.
    by rewrite criterion_non_null. }
  rewrite !Hsame.
  destruct (save_user_no_fault_rows w p i n e pic raw st Hnf) as [[Hsome ->] | [Hnone ->]].
  - rewrite filter_rewrite_rows, length_fmap by done. split.
    + destruct (filter (eq_filter p i) (auth_users st)); [done | simpl; lia].
    + intros r (r0 & -> & _)%list_elem_of_fmap Hkey. case_decide as Hr; [done |].
      exfalso. apply Hr. unfold eq_filter. by rewrite criterion_non_null.
  - rewrite filter_app, Hnone, filter_cons_True by by apply data_selected.
    simpl. split; [done |].
    intros r [Hr | Hr%list_elem_of_singleton]%elem_of_app Hkey; [| done].
    exfalso. apply (filter_nil_not_elem_of (eq_filter p i) _ r Hnone); [| done].
    unfold eq_filter. by rewrite criterion_non_null.
Qed.

Lemma save_user_keeps_duplicates_witness :
  let twice := {| session := ∅; auth_users := auth_users signed_in ++ auth_users signed_in;
                  calls := [] |} in
  length (filter (λ r, row_key r = ("google", PStr "g1"))
            (auth_users (save_user (offline 20) "google" (PStr "g1") (PStr "B") PNone
                           PNone (PDict []) twice).2)) = 2%nat.
Proof.
  apply (save_user_keeps_duplicates (offline 20) "google" (PStr "g1") (PStr "B") PNone
           PNone (PDict [])
           {| session := ∅; auth_users := auth_users signed_in ++ auth_users signed_in;
              calls := [] |}).
  - discriminate.
  - intros op. reflexivity.
Defined.

(** ** The order of the outbound calls *)

Lemma app_calls (w : World) (req : Request) (st : state) (pr : progress) :
  callback_steps w req = Some pr →
  calls (app w req st).2 = (calls st ++ calls_of w pr (auth_users st))%list.
Proof.
  intros Hsteps. rewrite (callback_run w req st pr Hsteps).
  destruct pr as [made out | profile data]; [done |].
  assert (updated_at data = utcnow w) as Hnow by by eapply normalized_row.
  unfold finish, calls_of, store_calls. rewrite save_user_run. simpl.
  destruct data as [p i n e pic raw now]. simpl in *. subst now.
  unfold row_of. simpl.
  destruct (supabase_fault w OpSelect); simpl; [by rewrite <- app_assoc |].
  case_bool_decide; unfold execute_update, execute_insert;
    [destruct (supabase_fault w OpUpdate) | destruct (supabase_fault w OpInsert)];
    simpl; by rewrite <- !app_assoc.
Qed.

(** X4. Every callback makes its outbound calls in one fixed order and stops
    at the first step that fails.  A token exchange that raises or that MSAL
    answers without a usable token is the only call made; a profile fetch that
    raises or does not decode is the second and last; a select that raises is
    the third and last; otherwise exactly one write follows the select, an
    update when the select found a row and an insert when it found none.  A
    Microsoft callback without a code makes no call at all. *)
Theorem callback_call_order (w : World) (req : Request) (st : state) :
  (∀ pr, callback_steps w req = Some pr →
         calls (app w req st).2 = (calls st ++ calls_of w pr (auth_users st))%list) ∧
  (path req = AuthRedirect →
   query_params req !! "code" = None ∨ query_params req !! "code" = Some "" →
   calls (app w req st).2 = calls st) ∧
  (∀ e,
     (path req = AuthGoogle ∧ google_authorize_access_token w = Raise e) ∨
     (path req = AuthFacebook ∧ facebook_authorize_access_token w = Raise e) ∨
     (path req = AuthRedirect ∧ ∃ code, query_params req !! "code" = Some code ∧
        code ≠ "" ∧ acquire_token_by_authorization_code w (PStr code) = Raise e) →
     calls (app w req st).2 = (calls st ++ [CallTokenExchange (idp_of (path req))])%list) ∧
  ((path req = AuthRedirect ∧ ∃ code result, query_params req !! "code" = Some code ∧
      code ≠ "" ∧ acquire_token_by_authorization_code w (PStr code) = Ok result ∧
      (is_Some (dict_lookup "error" result) ∨ dict_lookup "access_token" result = None)) →
   calls (app w req st).2 = (calls st ++ [CallTokenExchange "microsoft"])%list) ∧
  (∀ e,
     (path req = AuthGoogle ∧ ∃ tok, google_authorize_access_token w = Ok tok ∧
        google_userinfo w tok = Raise e) ∨
     (path req = AuthFacebook ∧ ∃ tok, facebook_authorize_access_token w = Ok tok ∧
        (facebook_get w tok = Raise e ∨
         ∃ resp, facebook_get w tok = Ok resp ∧ json resp = Raise e)) ∨
     (path req = AuthRedirect ∧ ∃ code result access_token,
        query_params req !! "code" = Some code ∧ code ≠ "" ∧
        acquire_token_by_authorization_code w (PStr code) = Ok result ∧
        dict_lookup "error" result = None ∧
        dict_lookup "access_token" result = Some access_token ∧
        (requests_get w access_token = Raise e ∨
         ∃ resp, requests_get w access_token = Ok resp ∧ json resp = Raise e)) →
     calls (app w req st).2 =
       (calls st ++ [CallTokenExchange (idp_of (path req));
                     CallProfileFetch (idp_of (path req))])%list) ∧
  (∀ data,
     identity_row w req = Some data →
     provider data = idp_of (path req) ∧
     (∀ e, supabase_fault w OpSelect = Some e →
           calls (app w req st).2 =
             (calls st ++ [CallTokenExchange (provider data);
                           CallProfileFetch (provider data);
                           CallSelect (provider data) (provider_user_id data)])%list) ∧
     (supabase_fault w OpSelect = None →
      (∃ r, r ∈ auth_users st ∧ row_key r = (provider data, criterion (provider_user_id data))) →
      calls (app w req st).2 =
        (calls st ++ [CallTokenExchange (provider data);
                      CallProfileFetch (provider data);
                      CallSelect (provider data) (provider_user_id data);
                      CallUpdate data])%list) ∧
     (supabase_fault w OpSelect = None →
      (¬ ∃ r, r ∈ auth_users st ∧ row_key r = (provider data, criterion (provider_user_id data))) →
      calls (app w req st).2 =
        (calls st ++ [CallTokenExchange (provider data);
                      CallProfileFetch (provider data);
                      CallSelect (provider data) (provider_user_id data);
                      CallInsert data])%list)).
Proof.
  split_and!.
  - intros pr. apply app_calls.
  - intros Hpath Hcode.
    rewrite (app_calls w req st (microsoft_steps w req))
      by (unfold callback_steps; by rewrite Hpath).
    unfold microsoft_steps. destruct Hcode as [-> | ->]; simpl; by rewrite app_nil_r.
  - intros e [[Hpath H] | [[Hpath H] | [Hpath (code & Hcode & Hne & H)]]]; rewrite Hpath.
    + rewrite (app_calls w req st (google_steps w))
        by (unfold callback_steps; by rewrite Hpath).
      unfold google_steps. by rewrite H.
    + rewrite (app_calls w req st (facebook_steps w))
        by (unfold callback_steps; by rewrite Hpath).
      unfold facebook_steps. by rewrite H.
    + rewrite (app_calls w req st (microsoft_steps w req))
        by (unfold callback_steps; by rewrite Hpath).
      unfold microsoft_steps. rewrite Hcode. destruct code; [done |]. by rewrite H.
  - intros [Hpath (code & result & Hcode & Hne & H & Hbad)].
    rewrite (app_calls w req st (microsoft_steps w req))
      by (unfold callback_steps; by rewrite Hpath).
    unfold microsoft_steps. rewrite Hcode. destruct code; [done |]. rewrite H.
    destruct Hbad as [[err ->] | ->]; [done |].
    by destruct (dict_lookup "error" result).
  - intros e
      [[Hpath (tok & Htok & H)] | [[Hpath (tok & Htok & H)]
       | [Hpath (code & result & access_token & Hcode & Hne & Htok & Herr & Hat & H)]]];
      rewrite Hpath.
    + rewrite (app_calls w req st (google_steps w))
        by (unfold callback_steps; by rewrite Hpath).
      unfold google_steps. by rewrite Htok, H.
    + rewrite (app_calls w req st (facebook_steps w))
        by (unfold callback_steps; by rewrite Hpath).
      unfold facebook_steps. rewrite Htok.
      destruct H as [-> | (resp & -> & ->)]; done.
    + rewrite (app_calls w req st (microsoft_steps w req))
        by (unfold callback_steps; by rewrite Hpath).
      unfold microsoft_steps. rewrite Hcode. destruct code; [done |].
      rewrite Htok, Herr, Hat. destruct H as [-> | (resp & -> & ->)]; done.
  - intros data Hrow. unfold identity_row in Hrow.
    destruct (callback_steps w req) as [[| profile data'] |] eqn:Hsteps; try done.
    injection Hrow as ->.
    destruct (normalized_row w req profile data Hsteps) as [_ Hp].
    rewrite (app_calls w req st _ Hsteps). unfold calls_of, store_calls.
    split_and!.
    + rewrite Hp. unfold idp_of. by destruct (path req).
    + by intros e ->.
    + intros -> Hsome. apply filter_eq_nonempty in Hsome.
      by rewrite bool_decide_eq_true_2.
    + intros -> Hnone. rewrite bool_decide_eq_false_2; [done |].
      intros Hsome. by apply Hnone, filter_eq_nonempty.
Qed.

Lemma callback_call_order_witness :
  calls (app (google_world 20 google_g1 store_down) (get AuthGoogle []) signed_in).2
  = [CallTokenExchange "google"; CallProfileFetch "google";
     CallSelect "google" (PStr "g1")] ∧
  calls (app (offline 20) (get AuthGoogle []) signed_in).2 = [CallTokenExchange "google"].
Proof.
  destruct (callback_call_order (google_world 20 google_g1 store_down)
              (get AuthGoogle []) signed_in) as (_ & _ & _ & _ & _ & Hstore).
  destruct (callback_call_order (offline 20) (get AuthGoogle []) signed_in)
    as (_ & _ & Htoken & _).
  split.
  - destruct (Hstore {| provider := "google"; provider_user_id := PStr "g1";
                        name := PStr "A"; email := PStr "a@x.com";
                        profile_picture := PStr "http://g/img";
                        raw_data := PDict google_g1; updated_at := 20 |} eq_refl)
      as (_ & Hselect & _).
    apply (Hselect (UpstreamError "storage unavailable")). reflexivity.
  - apply (Htoken (UpstreamError "unreachable")). left. split; reflexivity.
Defined.

(** ** Callbacks that go through *)

Lemma auth_google_success (w : World) (st : state) tok ui :
  google_authorize_access_token w = Ok tok →
  google_userinfo w tok = Ok ui →
  no_fault w →
  ∃ st',
    save_user w "google" (dict_get ui "sub") (dict_get ui "name") (dict_get ui "email")
      (dict_get ui "picture") (PDict ui)
      (log_call (CallProfileFetch "google") (log_call (CallTokenExchange "google") st))
      = (Ok (), st') ∧
    auth_google w st =
      (Ok (RedirectResponse "/"), with_session (insert "user" (PDict ui)) st').
Proof.
  intros Htok Hui Hnf.
  unfold auth_google, try_except, bind, call_out, session_setitem, ret. simpl.
  rewrite Htok. simpl. rewrite Hui. simpl.
  pose proof (save_user_no_fault_ok w "google" (dict_get ui "sub") (dict_get ui "name")
                (dict_get ui "email") (dict_get ui "picture") (PDict ui)
                (log_call (CallProfileFetch "google")
                   (log_call (CallTokenExchange "google") st)) Hnf) as Hok.
  destruct (save_user _ _ _ _ _ _ _ _) as [[[] | ex] st'] eqn:Hsave; [| done].
  by exists st'.
Qed.

Lemma auth_redirect_success (w : World) (req : Request) (st : state)
    code result access_token resp items :
  query_params req !! "code" = Some code → code ≠ "" →
  acquire_token_by_authorization_code w (PStr code) = Ok result →
  dict_lookup "error" result = None →
  dict_lookup "access_token" result = Some access_token →
  requests_get w access_token = Ok resp →
  json resp = Ok (PDict items) →
  no_fault w →
  ∃ st',
    save_user w "microsoft" (dict_get items "id") (dict_get items "displayName")
      (py_or (dict_get items "mail") (dict_get items "userPrincipalName")) PNone
      (PDict items)
      (log_call (CallProfileFetch "microsoft")
         (log_call (CallTokenExchange "microsoft") st))
      = (Ok (), st') ∧
    auth_redirect w req st =
      (Ok (RedirectResponse "/"), with_session (insert "user" (PDict items)) st').
Proof.
  intros Hcode Hne Htok Herr Hat Hresp Hjson Hnf.
  unfold auth_redirect, query_get. rewrite Hcode. simpl.
  rewrite bool_decide_eq_false_2 by done. simpl.
  unfold bind, call_out, lift, session_setitem, ret, dict_contains, dict_getitem. simpl.
  rewrite Htok. simpl. rewrite Herr. simpl. rewrite Hat. simpl.
  rewrite Hresp. simpl. rewrite Hjson. simpl.
  fold (dict_get items "id") (dict_get items "displayName") (dict_get items "mail")
    (dict_get items "userPrincipalName").
  pose proof (save_user_no_fault_ok w "microsoft" (dict_get items "id")
                (dict_get items "displayName")
                (py_or (dict_get items "mail") (dict_get items "userPrincipalName"))
                PNone (PDict items)
                (log_call (CallProfileFetch "microsoft")
                   (log_call (CallTokenExchange "microsoft") st)) Hnf) as Hok.
  unfold py_or in *.
  destruct (truthy (dict_get items "mail")); simpl;
    destruct (save_user _ _ _ _ _ _ _ _) as [[[] | ex] st'] eqn:Hsave; try done;
    by exists st'.
Qed.



(** X6. The Microsoft callback checks neither the status nor the shape of the
    Graph reply beyond its being a JSON object: given a code, a token result
    with an access token and no error key, and a store that answers, it goes
    through for every such reply, puts the reply under "user", and leaves a row
    with the reply's id, displayName and e-mail, None for a missing key.  An
    error document returned by Graph is therefore stored as an identity. *)
Theorem microsoft_row_from_any_reply (w : World) (req : Request) (st : state)
    code result access_token resp items :
  query_params req !! "code" = Some code → code ≠ "" →
  acquire_token_by_authorization_code w (PStr code) = Ok result →
  dict_lookup "error" result = None →
  dict_lookup "access_token" result = Some access_token →
  requests_get w access_token = Ok resp →
  json resp = Ok (PDict items) →
  no_fault w →
  went_through (auth_redirect w req st).1 ∧
  session (auth_redirect w req st).2 = <["user" := PDict items]> (session st) ∧
  {| provider := "microsoft";
     provider_user_id := default PNone (dict_lookup "id" items);
     name := default PNone (dict_lookup "displayName" items);
     email := mail_or_principal items;
     profile_picture := PNone;
     raw_data := PDict items;
     updated_at := utcnow w |} ∈ auth_users (auth_redirect w req st).2.
Proof.
  intros Hcode Hne Htok Herr Hat Hresp Hjson Hnf.
  destruct (auth_redirect_success w req st code result access_token resp items)
    as (st' & Hsave & ->); try done.
  split; [done |]. simpl.
  pose proof (save_user_session w "microsoft" (dict_get items "id")
                (dict_get items "displayName")
                (py_or (dict_get items "mail") (dict_get items "userPrincipalName"))
                PNone (PDict items)
                (log_call (CallProfileFetch "microsoft")
                   (log_call (CallTokenExchange "microsoft") st))) as Hs.
  rewrite Hsave in Hs. simpl in Hs. rewrite Hs. split; [done |].
  by apply save_user_ok_inv in Hsave as (_ & Hin & _).
Qed.

Lemma microsoft_row_from_any_reply_witness :
  let reply := [("error", PDict [("code", PStr "InvalidAuthenticationToken")])] in
  let run := auth_redirect (microsoft_world 20 (PDict reply) store_up)
               (get AuthRedirect [("code", "abc")]) anonymous in
  went_through run.1 ∧
  session run.2 !! "user" = Some (PDict reply) ∧
  auth_users run.2
  = [{| provider := "microsoft"; provider_user_id := PNone; name := PNone;
        email := PNone; profile_picture := PNone; raw_data := PDict reply;
        updated_at := 20 |}].
Proof.
  destruct (microsoft_row_from_any_reply
              (microsoft_world 20
                 (PDict [("error", PDict [("code", PStr "InvalidAuthenticationToken")])])
                 store_up)
              (get AuthRedirect [("code", "abc")]) anonymous "abc"
              [("access_token", PStr "m-token")] (PStr "m-token")
              {| json := Ok (PDict [("error",
                                     PDict [("code", PStr "InvalidAuthenticationToken")])]) |}
              [("error", PDict [("code", PStr "InvalidAuthenticationToken")])]
              eq_refl) as (Hwent & _ & _);
    [done | reflexivity | reflexivity | reflexivity | reflexivity | reflexivity
     | intros op; reflexivity |].
  split; [exact Hwent |]. split; reflexivity.
Defined.

(** ** Profiles of an unexpected shape *)





(** ** The Microsoft token result *)

(** X9. When the token result of MSAL carries an "error" key, the Microsoft
    callback answers the JSON object with that error and the result's
    "error_description" (None when it has none), even if the result also
    carries an access token; only the token exchange has been called, and the
    session and the table stay as they were. *)
Theorem auth_redirect_token_error (w : World) (req : Request) (st : state) code result err :
  query_params req !! "code" = Some code → code ≠ "" →
  acquire_token_by_authorization_code w (PStr code) = Ok result →
  dict_lookup "error" result = Some err →
  auth_redirect w req st =
    (Ok (JSONResponse
           (PDict [("error", err);
                   ("description", default PNone (dict_lookup "error_description" result))])),
     {| session := session st; auth_users := auth_users st;
        calls := (calls st ++ [CallTokenExchange "microsoft"])%list |}).
Proof.
  intros Hcode Hne Htok Herr.
  unfold auth_redirect, query_get. rewrite Hcode. simpl.
  rewrite bool_decide_eq_false_2 by done. simpl.
  unfold bind, call_out, ret, dict_contains, dict_get. simpl.
  rewrite Htok. simpl. rewrite Herr. simpl. done.
Qed.

Lemma auth_redirect_token_error_witness :
  let w := {| utcnow := 20; supabase_fault := store_up;
              google_authorize_redirect := unreachable;
              google_authorize_access_token := unreachable;
              google_userinfo := λ _, unreachable;
              facebook_authorize_redirect := unreachable;
              facebook_authorize_access_token := unreachable;
              facebook_get := λ _, unreachable;
              get_authorization_request_url := unreachable;
              acquire_token_by_authorization_code :=
                λ _, Ok [("access_token", PStr "m-token"); ("error", PStr "invalid_grant")];
              requests_get := λ _, unreachable |} in
  auth_redirect w (get AuthRedirect [("code", "abc")]) signed_in
  = (Ok (JSONResponse (PDict [("error", PStr "invalid_grant"); ("description", PNone)])),
     {| session := session signed_in; auth_users := auth_users signed_in;
        calls := [CallTokenExchange "microsoft"] |}).
Proof.
  intros w.
  apply (auth_redirect_token_error w (get AuthRedirect [("code", "abc")]) signed_in "abc"
           [("access_token", PStr "m-token"); ("error", PStr "invalid_grant")]
           (PStr "invalid_grant")); done.
Defined.

(** X10. When the token result carries neither an "error" key nor an
    "access_token" key, the subscript [result["access_token"]] raises KeyError
    and, the Microsoft handler having no try/except, the exception leaves the
    handler; only the token exchange has been called. *)
Theorem auth_redirect_missing_access_token (w : World) (req : Request) (st : state)
    code result :
  query_params req !! "code" = Some code → code ≠ "" →
  acquire_token_by_authorization_code w (PStr code) = Ok result →
  dict_lookup "error" result = None →
  dict_lookup "access_token" result = None →
  auth_redirect w req st =
    (Raise (KeyError "access_token"),
     {| session := session st; auth_users := auth_users st;
        calls := (calls st ++ [CallTokenExchange "microsoft"])%list |}).
Proof.
  intros Hcode Hne Htok Herr Hat.
  unfold auth_redirect, query_get. rewrite Hcode. simpl.
  rewrite bool_decide_eq_false_2 by done. simpl.
  unfold bind, call_out, lift, ret, dict_contains, dict_getitem. simpl.
  rewrite Htok. simpl. rewrite Herr. simpl. rewrite Hat. done.
Qed.

Lemma auth_redirect_missing_access_token_witness :
  let w := {| utcnow := 20; supabase_fault := store_up;
              google_authorize_redirect := unreachable;
              google_authorize_access_token := unreachable;
              google_userinfo := λ _, unreachable;
              facebook_authorize_redirect := unreachable;
              facebook_authorize_access_token := unreachable;
              facebook_get := λ _, unreachable;
              get_authorization_request_url := unreachable;
              acquire_token_by_authorization_code := λ _, Ok [("token_type", PStr "Bearer")];
              requests_get := λ _, unreachable |} in
  auth_redirect w (get AuthRedirect [("code", "abc")]) signed_in
  = (Raise (KeyError "access_token"),
     {| session := session signed_in; auth_users := auth_users signed_in;
        calls := [CallTokenExchange "microsoft"] |}).
Proof.
  intros w.
  apply (auth_redirect_missing_access_token w (get AuthRedirect [("code", "abc")])
           signed_in "abc" [("token_type", PStr "Bearer")]); done.
Defined.

(** ** Identities of different providers *)

(** X11. A callback only ever writes rows of its own provider: every row of
    another provider is, after the callback, where it was and as it was,
    whether the callback goes through or fails. *)
Theorem callback_leaves_other_providers (w : World) (req : Request) (st : state)
    (k : nat) (r : row) :
  auth_users st !! k = Some r →
  (provider r ≠ "google" → auth_users (auth_google w st).2 !! k = Some r) ∧
  (provider r ≠ "facebook" → auth_users (auth_facebook w st).2 !! k = Some r) ∧
  (provider r ≠ "microsoft" → auth_users (auth_redirect w req st).2 !! k = Some r).
Proof.
  intros Hk. split_and!; intros Hp.
  - destruct (auth_google_cases w st)
      as [(tok & ui & st1 & st' & _ & _ & Hsave & _ & Hrows & ->)
         | (? & ? & -> & _ & Hsame)]; simpl; [| by rewrite Hsame].
    rewrite <- Hrows in Hk.
    apply (save_user_lookup_other w "google" (dict_get ui "sub") (dict_get ui "name")
             (dict_get ui "email") (dict_get ui "picture") (PDict ui)) in Hk.
    + by rewrite Hsave in Hk.
    + unfold eq_filter, row_key. congruence.
  - destruct (auth_facebook_cases w st)
      as [(tok & resp & items & p1 & pic & st1 & st' & _ & _ & _ & _ & _ & Hsave & _
           & Hrows & ->) | (? & ? & -> & _ & Hsame)]; simpl; [| by rewrite Hsame].
    rewrite <- Hrows in Hk.
    apply (save_user_lookup_other w "facebook" (dict_get items "id")
             (dict_get items "name") (dict_get items "email") pic (PDict items)) in Hk.
    + by rewrite Hsave in Hk.
    + unfold eq_filter, row_key. congruence.
  - destruct (auth_redirect_cases w req st)
      as [(code & result & access_token & resp & items & st1 & st' & _ & _ & _ & _ & _
           & _ & _ & Hsave & _ & Hrows & _ & ->) | (? & ? & -> & _ & _ & Hsame)];
      simpl; [| by rewrite Hsame].
    rewrite <- Hrows in Hk.
    apply (save_user_lookup_other w "microsoft" (dict_get items "id")
             (dict_get items "displayName")
             (py_or (dict_get items "mail") (dict_get items "userPrincipalName"))
             PNone (PDict items)) in Hk.
    + by rewrite Hsave in Hk.
    + unfold eq_filter, row_key. congruence.
Qed.

Lemma callback_leaves_other_providers_witness :
  auth_users
    (auth_facebook
       (facebook_world 20 (PDict [("id", PStr "g1"); ("name", PStr "Z")]) store_up)
       signed_in).2 !! 0%nat
  = auth_users signed_in !! 0%nat.
Proof.
  destruct (callback_leaves_other_providers
              (facebook_world 20 (PDict [("id", PStr "g1"); ("name", PStr "Z")]) store_up)
              (get AuthFacebook []) signed_in 0%nat
              {| provider := "google"; provider_user_id := PStr "g1";
                 name := PStr "A"; email := PStr "a@x.com";
                 profile_picture := PStr "http://g/img";
                 raw_data := PDict google_g1; updated_at := 10 |} eq_refl)
    as (_ & Hfacebook & _).
  apply Hfacebook. discriminate.
Defined.

(** ** The routes that are not callbacks *)



(** X13. Only callbacks reach the store or the "user" entry: a request for
    the home page, a login route or logout leaves the table as it was and logs
    no store call.  The home page and the Microsoft login leave the session as
    it was; the Google and Facebook logins add to it the one entry that the
    OAuth library keeps for the state it generated, under
    [_state_<name>_<state>], and nothing when the library raises; logout
    empties it. *)
Theorem only_callbacks_reach_store (w : World) (req : Request) (st : state) :
  is_callback (path req) = false →
  auth_users (app w req st).2 = auth_users st ∧
  (∃ new, calls (app w req st).2 = (calls st ++ new)%list ∧
          Forall (λ c, is_store_call c = false) new) ∧
  (path req ≠ Logout → session (app w req st).2 !! "user" = session st !! "user") ∧
  (path req = Home ∨ path req = LoginMicrosoft → session (app w req st).2 = session st) ∧
  (∀ a, (path req = LoginGoogle ∧ google_authorize_redirect w = Ok a) ∨
        (path req = LoginFacebook ∧ facebook_authorize_redirect w = Ok a) →
        (app w req st).1 = Ok (RedirectResponse (authorization_url a)) ∧
        session (app w req st).2 =
          <["_state_" +:+ idp_of_login (path req) +:+ "_" +:+ state_param a := state_data a]>
            (session st)) ∧
  (∀ e, (path req = LoginGoogle ∧ google_authorize_redirect w = Raise e) ∨
        (path req = LoginFacebook ∧ facebook_authorize_redirect w = Raise e) →
        (app w req st).1 = Raise e ∧ session (app w req st).2 = session st) ∧
  (path req = Logout → session (app w req st).2 = ∅).
Proof.
  unfold app. destruct (path req) eqn:Hpath; try done; intros _;
    unfold login_google, login_facebook, login_microsoft, authorize_redirect, bind,
      call_out, session_setitem, ret; simpl;
    [| destruct (google_authorize_redirect w) as [a |] eqn:Hlib
     | destruct (facebook_authorize_redirect w) as [a |] eqn:Hlib
     | destruct (get_authorization_request_url w) |];
    simpl; split_and!;
    try done;
    try (exists []; split; [by rewrite app_nil_r | constructor]);
    try (eexists [_]; split; [reflexivity | by repeat constructor]);
    try (intros _; apply lookup_insert_ne, state_key_not_user);
    try (by intros [? | ?]);
    try (intros ? [[? ?] | [? ?]]; by simplify_eq).
Qed.

Lemma only_callbacks_reach_store_witness :
  let consent := {| state_param := "xyz"; state_data := PDict [("redirect_uri", PStr "/auth/google")];
                    authorization_url := "https://accounts.google.com/o/oauth2/v2/auth" |} in
  let run := app (google_consent 20 consent) (get LoginGoogle []) signed_in in
  auth_users run.2 = auth_users signed_in ∧
  session run.2 !! "user" = session signed_in !! "user" ∧
  session run.2 !! "_state_google_xyz" = Some (PDict [("redirect_uri", PStr "/auth/google")]).
Proof.
  intros consent run.
  destruct (only_callbacks_reach_store (google_consent 20 consent) (get LoginGoogle [])
              signed_in eq_refl) as (Hrows & _ & Huser & _ & Hstate & _).
  split; [exact Hrows |]. split; [apply Huser; discriminate |].
  destruct (Hstate consent) as [_ Hs]; [left; split; reflexivity |].
  subst run. rewrite Hs. reflexivity.
Defined.

(** ** What the caller sees of a failure *)

(** X15. The error page of the Google and Facebook callbacks carries the text
    of the exception as it was raised: whichever of the token exchange, the
    profile fetch, the JSON decoding or the store's select raises [e], the
    response is error.html with message [str(e)]. *)
Theorem error_page_shows_exception (w : World) (st : state) (e : exn) :
  (google_authorize_access_token w = Raise e ∨
   (∃ tok, google_authorize_access_token w = Ok tok ∧ google_userinfo w tok = Raise e) ∨
   (∃ tok ui, google_authorize_access_token w = Ok tok ∧ google_userinfo w tok = Ok ui ∧
              supabase_fault w OpSelect = Some e) →
   (auth_google w st).1 =
     Ok (TemplateResponse "error.html" [("message", PStr (str_exn e))])) ∧
  (facebook_authorize_access_token w = Raise e ∨
   (∃ tok, facebook_authorize_access_token w = Ok tok ∧ facebook_get w tok = Raise e) ∨
   (∃ tok resp, facebook_authorize_access_token w = Ok tok ∧
                facebook_get w tok = Ok resp ∧ json resp = Raise e) ∨
   (∃ tok resp items p1 pic,
      facebook_authorize_access_token w = Ok tok ∧
      facebook_get w tok = Ok resp ∧ json resp = Ok (PDict items) ∧
      py_get_default (default (PDict []) (dict_lookup "picture" items)) "data" (PDict [])
        = Ok p1 ∧
      py_get p1 "url" = Ok pic ∧
      supabase_fault w OpSelect = Some e) →
   (auth_facebook w st).1 =
     Ok (TemplateResponse "error.html" [("message", PStr (str_exn e))])).
Proof.
  split.
  - unfold auth_google, try_except, bind, call_out, session_setitem, ret. simpl.
    intros [-> | [(tok & -> & Hui) | (tok & ui & -> & Hui & Hsel)]]; simpl;
      [done | by rewrite Hui |].
    rewrite Hui. simpl. rewrite save_user_run. simpl. by rewrite Hsel.
  - unfold auth_facebook, try_except, bind, call_out, lift, session_setitem, ret. simpl.
    intros [-> | [(tok & -> & Hget) | [(tok & resp & -> & Hget & Hjson)
      | (tok & resp & items & p1 & pic & -> & Hget & Hjson & Hp1 & Hpic & Hsel)]]];
      simpl; [done | by rewrite Hget | by rewrite Hget; simpl; rewrite Hjson |].
    rewrite Hget. simpl. rewrite Hjson. simpl. rewrite Hp1. simpl. rewrite Hpic. simpl.
    rewrite save_user_run. simpl. by rewrite Hsel.
Qed.

Lemma error_page_shows_exception_witness :
  (auth_google (google_world 20 google_g1 store_down) signed_in).1 =
    Ok (TemplateResponse "error.html" [("message", PStr "storage unavailable")]).
Proof.
  destruct (error_page_shows_exception (google_world 20 google_g1 store_down) signed_in
              (UpstreamError "storage unavailable")) as [Hgoogle _].
  apply Hgoogle. right. right. by eexists _, _.
Defined.

(** X16. A Graph reply that parses as JSON but is not an object (a list, a
    string, null) makes the first [.get] of the Microsoft callback raise
    AttributeError, which leaves the handler; the store has not been called
    and the session and the table stay as they were. *)
Theorem auth_redirect_reply_not_object (w : World) (req : Request) (st : state)
    code result access_token resp u :
  query_params req !! "code" = Some code → code ≠ "" →
  acquire_token_by_authorization_code w (PStr code) = Ok result →
  dict_lookup "error" result = None →
  dict_lookup "access_token" result = Some access_token →
  requests_get w access_token = Ok resp →
  json resp = Ok u →
  is_dict u = false →
  auth_redirect w req st =
    (Raise (AttributeError (type_name u) "get"),
     {| session := session st; auth_users := auth_users st;
        calls := (calls st ++ [CallTokenExchange "microsoft";
                               CallProfileFetch "microsoft"])%list |}).
Proof.
  intros Hcode Hne Htok Herr Hat Hresp Hjson Hu.
  unfold auth_redirect, query_get. rewrite Hcode. simpl.
  rewrite bool_decide_eq_false_2 by done. simpl.
  unfold bind, call_out, lift, ret, dict_contains, dict_getitem. simpl.
  rewrite Htok. simpl. rewrite Herr. simpl. rewrite Hat. simpl.
  rewrite Hresp. simpl. rewrite Hjson. simpl.
  destruct u; try done; simpl; unfold log_call; simpl; by rewrite <- app_assoc.
Qed.

Lemma auth_redirect_reply_not_object_witness :
  auth_redirect (microsoft_world 20 (PList []) store_up)
    (get AuthRedirect [("code", "abc")]) signed_in
  = (Raise (AttributeError "list" "get"),
     {| session := session signed_in; auth_users := auth_users signed_in;
        calls := [CallTokenExchange "microsoft"; CallProfileFetch "microsoft"] |}).
Proof.
  apply (auth_redirect_reply_not_object (microsoft_world 20 (PList []) store_up)
           (get AuthRedirect [("code", "abc")]) signed_in "abc"
           [("access_token", PStr "m-token")] (PStr "m-token")
           {| json := Ok (PList []) |} (PList [])); done.
Defined.

(** X17. Identities are kept per provider and never linked: when a browser
    signs in through Google and then through Facebook, the store answering
    both times, the table holds the Google row and the Facebook row side by
    side, even for one and the same id and e-mail, and the session holds the
    Facebook profile only. *)
Theorem two_providers_two_rows (w1 w2 : World) (st : state) tok1 ui tok2 resp items p1 pic :
  google_authorize_access_token w1 = Ok tok1 →
  google_userinfo w1 tok1 = Ok ui →
  no_fault w1 →
  facebook_authorize_access_token w2 = Ok tok2 →
  facebook_get w2 tok2 = Ok resp →
  json resp = Ok (PDict items) →
  py_get_default (default (PDict []) (dict_lookup "picture" items)) "data" (PDict [])
    = Ok p1 →
  py_get p1 "url" = Ok pic →
  no_fault w2 →
  let st2 := (auth_facebook w2 (auth_google w1 st).2).2 in
  went_through (auth_google w1 st).1 ∧
  went_through (auth_facebook w2 (auth_google w1 st).2).1 ∧
  session st2 !! "user" = Some (PDict items) ∧
  {| provider := "google";
     provider_user_id := default PNone (dict_lookup "sub" ui);
     name := default PNone (dict_lookup "name" ui);
     email := default PNone (dict_lookup "email" ui);
     profile_picture := default PNone (dict_lookup "picture" ui);
     raw_data := PDict ui;
     updated_at := utcnow w1 |} ∈ auth_users st2 ∧
  {| provider := "facebook";
     provider_user_id := default PNone (dict_lookup "id" items);
     name := default PNone (dict_lookup "name" items);
     email := default PNone (dict_lookup "email" items);
     profile_picture := nested ["picture"; "data"; "url"] (PDict items);
     raw_data := PDict items;
     updated_at := utcnow w2 |} ∈ auth_users st2.
Proof.
  intros Htok1 Hui Hnf1 Htok2 Hresp Hjson Hp1 Hpic Hnf2 st2. subst st2.
  set (st1 := (auth_google w1 st).2).
  assert (went_through (auth_google w1 st).1 ∧
          {| provider := "google";
             provider_user_id := default PNone (dict_lookup "sub" ui);
             name := default PNone (dict_lookup "name" ui);
             email := default PNone (dict_lookup "email" ui);
             profile_picture := default PNone (dict_lookup "picture" ui);
             raw_data := PDict ui;
             updated_at := utcnow w1 |} ∈ auth_users st1) as [Hwent Hgoogle].
  { subst st1. destruct (auth_google_success w1 st tok1 ui Htok1 Hui Hnf1)
      as (st' & Hsave & ->). simpl. split; [done |].
    by apply save_user_ok_inv in Hsave as (_ & Hin & _). }
  split; [done |].
  destruct (auth_facebook_success w2 st1 tok2 resp items p1 pic)
    as (st' & Hsave & ->); try done.
  rewrite (nested_picture items p1 pic Hp1 Hpic).
  simpl. split_and!.
  - done.
  - by rewrite lookup_insert_eq.
  - apply list_elem_of_lookup_1 in Hgoogle as [k Hk].
    apply (save_user_lookup_other w2 "facebook" (dict_get items "id")
             (dict_get items "name") (dict_get items "email") pic (PDict items)
             (log_call (CallProfileFetch "facebook")
                (log_call (CallTokenExchange "facebook") st1))) in Hk; [| done].
    rewrite Hsave in Hk. by eapply list_elem_of_lookup_2.
  - by apply save_user_ok_inv in Hsave as (_ & Hin & _).
Qed.

Lemma two_providers_two_rows_witness :
  let profile := [("id", PStr "g1"); ("email", PStr "a@x.com");
                  ("picture", PDict [("data", PDict [("url", PStr "http://img")])])] in
  let st2 := (auth_facebook (facebook_world 30 (PDict profile) store_up)
                (auth_google (google_world 20 google_g1 store_up) anonymous).2).2 in
  session st2 !! "user" = Some (PDict profile) ∧
  provider <$> auth_users st2 = ["google"; "facebook"] ∧
  profile_picture <$> auth_users st2 = [PStr "http://g/img"; PStr "http://img"].
Proof.
  intros profile st2.
  destruct (two_providers_two_rows (google_world 20 google_g1 store_up)
              (facebook_world 30 (PDict profile) store_up)
              anonymous (PDict [("access_token", PStr "g-token")]) google_g1
              (PDict [("access_token", PStr "f-token")])
              {| json := Ok (PDict profile) |} profile
              (PDict [("url", PStr "http://img")]) (PStr "http://img") eq_refl eq_refl)
    as (_ & _ & Huser & _ & _);
    [intros op; reflexivity | reflexivity | reflexivity | reflexivity | reflexivity
     | reflexivity | intros op; reflexivity |].
  split; [exact Huser |]. split; reflexivity.
Defined.
